(** * Speech-To-Text backend: the Express route handlers, embedded and verified

    The server is one file of route handlers.  Each handler reads fields of
    the request, awaits calls to outside services (the Supabase tables and
    storage bucket, bcryptjs, the Deepgram client) and sends one JSON
    response.  The embedding keeps that shape:

    - [Js]     : the JavaScript values the handlers touch, with truthiness,
                 property reads and destructuring (on [undefined] or [null]
                 they throw a TypeError), conversion to a string (it throws
                 for an object that has no prototype) and [||];
    - [Regex]  : the anchored character-class pattern of the userId check;
    - [Async]  : a small monad for [await], [throw] and [try]/[catch]; running
                 a handler against an oracle for the outside services gives
                 its completion and the list of calls it made, in order;
    - [Server] : the six handlers, line by line, and the routes they are
                 registered on;
    - [Answers], [Spec], [Samples] : what an oracle answered, the
                 properties in the specification's words, and concrete
                 requests and oracles.

    [console.log] and [console.error] change neither the response nor the
    calls made and are left out.  [audioModel.js] declares a schema that no
    route uses. *)

From Stdlib Require Import String Ascii List ZArith Bool Lia.
From Stdlib Require Import DecimalString DecimalPos DecimalZ.
Import ListNotations.
Local Open Scope string_scope.
Local Open Scope Z_scope.

(* ===================================================================== *)
(** ** JavaScript values *)
(* ===================================================================== *)

Module Js.

(** Values as the handlers see them: what [JSON.parse] and the client
    libraries hand back.  Numbers are the integers ([user.id] may be one);
    an object is its list of own properties, in insertion order, each key
    occurring once. *)
#[local] Set Warnings "-register-all".
Inductive JsVal : Type :=
| VUndef
| VNull
| VBool (b : bool)
| VNum (n : Z)
| VStr (s : string)
| VArr (items : list JsVal)
| VObj (fields : list (string * JsVal)).

(** [new Error(msg)], as far as the handlers look at it: its [message]. *)
Definition new_Error (msg : string) : JsVal := VObj [("message", VStr msg)].

(** The TypeError the engine throws for a property read on [undefined] or
    [null] (V8's wording). *)
Definition TypeError_read (of_null : bool) (key : string) : JsVal :=
  new_Error ("Cannot read properties of "
             ++ (if of_null then "null" else "undefined")
             ++ " (reading '" ++ key ++ "')").

(** The TypeError for destructuring [undefined] or [null]; [source] is the
    text of the destructured expression as the engine prints it. *)
Definition TypeError_destructure (of_null : bool) (source key : string) : JsVal :=
  new_Error ("Cannot destructure property '" ++ key ++ "' of '" ++ source
             ++ "' as it is " ++ (if of_null then "null" else "undefined") ++ ".").

(** The TypeError of a conversion to a string that finds neither
    [toString] nor [valueOf]. *)
Definition TypeError_convert : JsVal :=
  new_Error "Cannot convert object to primitive value".

(** ToBoolean. *)
Definition truthy (v : JsVal) : bool :=
  match v with
  | VUndef | VNull => false
  | VBool b => b
  | VNum n => negb (n =? 0)
  | VStr s => negb (String.eqb s EmptyString)
  | VArr _ | VObj _ => true
  end.

(** [v === undefined || v === null], the test behind [?.]. *)
Definition nullish (v : JsVal) : bool :=
  match v with
  | VUndef | VNull => true
  | _ => false
  end.

(** [v === null] *)
Definition is_null (v : JsVal) : bool :=
  match v with VNull => true | _ => false end.

(** [a || b] *)
Definition js_or (a b : JsVal) : JsVal := if truthy a then a else b.

Fixpoint lookup (key : string) (fields : list (string * JsVal)) : option JsVal :=
  match fields with
  | [] => None
  | (k, v) :: rest => if String.eqb k key then Some v else lookup key rest
  end.

Definition keys (fields : list (string * JsVal)) : list string := map fst fields.

(** Result of evaluating an expression that may throw. *)
Inductive Eval (A : Type) : Type :=
| Value (a : A)
| Raise (e : JsVal).
Arguments Value {A} a.
Arguments Raise {A} e.

Definition nat_of_index_key (key : string) : option nat :=
  match NilEmpty.uint_of_string key with
  | Some d => if String.eqb (NilZero.string_of_uint d) key
              then Some (Nat.of_uint d) else None
  | None => None
  end.

(** The value of property [key] of a value that is neither [undefined] nor
    [null]: own data properties, plus [length] of arrays and strings and
    their index properties. *)
Definition prop (v : JsVal) (key : string) : JsVal :=
  match v with
  | VObj fields =>
      match lookup key fields with Some x => x | None => VUndef end
  | VArr items =>
      if String.eqb key "length" then VNum (Z.of_nat (List.length items))
      else match nat_of_index_key key with
           | Some i => nth i items VUndef
           | None => VUndef
           end
  | VStr s =>
      if String.eqb key "length" then VNum (Z.of_nat (String.length s))
      else match nat_of_index_key key with
           | Some i => match String.get i s with
                       | Some c => VStr (String c EmptyString)
                       | None => VUndef
                       end
           | None => VUndef
           end
  | VUndef | VNull | VBool _ | VNum _ => VUndef
  end.

(** [v.key]: a read on [undefined] or [null] throws. *)
Definition get_field (v : JsVal) (key : string) : Eval JsVal :=
  match v with
  | VUndef => Raise (TypeError_read false key)
  | VNull => Raise (TypeError_read true key)
  | _ => Value (prop v key)
  end.

(** [const { key } = v], [source] being the text of [v]'s expression:
    destructuring [undefined] or [null] throws. *)
Definition get_destructured (source : string) (v : JsVal) (key : string) : Eval JsVal :=
  match v with
  | VUndef => Raise (TypeError_destructure false source key)
  | VNull => Raise (TypeError_destructure true source key)
  | _ => Value (prop v key)
  end.

(** [v[i]] for a literal index. *)
Definition get_index (v : JsVal) (i : nat) : Eval JsVal :=
  get_field v (NilZero.string_of_uint (Nat.to_uint i)).

(** Number::toString for an integer (the decimal digits, as for integers
    below 10^21). *)
Definition number_to_string (n : Z) : string := NilZero.string_of_int (Z.to_int n).

(** [Array.prototype.join] with commas, each item converted by
    [item_string], from left to right; the first conversion that throws
    ends the join. *)
Definition join_items (item_string : JsVal -> Eval string) : list JsVal -> Eval string :=
  fix join (l : list JsVal) : Eval string :=
    match l with
    | [] => Value EmptyString
    | [x] => item_string x
    | x :: rest =>
        match item_string x with
        | Raise e => Raise e
        | Value first =>
            match join rest with
            | Raise e => Raise e
            | Value others => Value (first ++ "," ++ others)
            end
        end
    end.

(** ToString, as [RegExp.prototype.test] applies it to its argument.  An
    array is joined with commas, [undefined] and [null] items giving the
    empty string.  An object that reaches a conversion in this server is a
    nested field of the multipart body, which the body parser makes with
    [Object.create(null)]: nothing converts it, and the conversion throws. *)
Fixpoint to_string (v : JsVal) : Eval string :=
  match v with
  | VUndef => Value "undefined"
  | VNull => Value "null"
  | VBool true => Value "true"
  | VBool false => Value "false"
  | VNum n => Value (number_to_string n)
  | VStr s => Value s
  | VArr items =>
      join_items (fun x => if nullish x then Value EmptyString else to_string x) items
  | VObj _ => Raise TypeError_convert
  end.

End Js.
Export Js.

(* ===================================================================== *)
(** ** The userId pattern *)
(* ===================================================================== *)

Module Regex.

(** An item of a character class: a range [lo-hi] or a single character. *)
Inductive ClassItem : Type :=
| Range (lo hi : ascii)
| Single (c : ascii).

Definition item_matches (it : ClassItem) (c : ascii) : bool :=
  match it with
  | Range lo hi =>
      (nat_of_ascii lo <=? nat_of_ascii c)%nat && (nat_of_ascii c <=? nat_of_ascii hi)%nat
  | Single d => Ascii.eqb c d
  end.

Definition class_matches (cls : list ClassItem) (c : ascii) : bool :=
  existsb (fun it => item_matches it c) cls.

(** The pattern [/^[cls]{count}$/]: no flags, so [^] and [$] are the two
    ends of the input. *)
Record Pattern : Type := { cls : list ClassItem; count : nat }.

Fixpoint matches_exactly (cls : list ClassItem) (n : nat) (s : string) : bool :=
  match n, s with
  | O, EmptyString => true
  | S n', String c s' => class_matches cls c && matches_exactly cls n' s'
  | _, _ => false
  end.

(** [pattern.test(v)]: the argument is converted to a string first, which
    may throw.  A character outside ASCII is, in this byte model, a run of
    bytes above 127; no item of an ASCII class matches them, as none matches
    the character. *)
Definition test (p : Pattern) (v : JsVal) : Eval bool :=
  match to_string v with
  | Value s => Value (matches_exactly (cls p) (count p) s)
  | Raise e => Raise e
  end.

End Regex.

(* ===================================================================== *)
(** ** Calls to the outside services *)
(* ===================================================================== *)

Module Providers.

(** One constructor per call expression of the server; the arguments are
    the values the expression passes. *)
Inductive Call : Type :=
(** [supabase.from('users').select('*').eq('email', email).single()] *)
| UsersSelectByEmail (email : JsVal)
(** [supabase.from('users').insert([row]).single()] *)
| UsersInsert (row : JsVal)
(** [bcrypt.hash(s, rounds)] *)
| BcryptHash (s : JsVal) (rounds : Z)
(** [bcrypt.compare(s, hash)] *)
| BcryptCompare (s : JsVal) (hash : JsVal)
(** [supabase.storage.from(bucket).upload(path, buffer, options)] *)
| StorageUpload (bucket : JsVal) (path : string) (buffer : list Byte.byte) (options : JsVal)
(** [supabase.storage.from(bucket).getPublicUrl(path)] *)
| StorageGetPublicUrl (bucket : JsVal) (path : JsVal)
(** [deepgram.listen.prerecorded.transcribeFile(buffer, options)] *)
| DeepgramTranscribeFile (buffer : list Byte.byte) (options : JsVal)
(** [supabase.from('transcriptions').insert([row]).single()] *)
| TranscriptionsInsert (row : JsVal)
(** [supabase.from('transcriptions').select("transcript, file_url").eq("user_id", userId)] *)
| TranscriptionsSelectByUser (userId : JsVal).

(** What a call gives back: the value the promise resolves to (or the call
    returns), or the value it rejects with (or throws). *)
Inductive Outcome : Type :=
| Resolved (v : JsVal)
| Rejected (e : JsVal).

(** The outside world, as far as one request sees it. *)
Definition Oracle : Type := Call -> Outcome.

Definition is_storage_call (c : Call) : bool :=
  match c with
  | StorageUpload _ _ _ _ | StorageGetPublicUrl _ _ => true
  | _ => false
  end.

Definition is_transcription_call (c : Call) : bool :=
  match c with
  | DeepgramTranscribeFile _ _ => true
  | _ => false
  end.

Definition is_hash_call (c : Call) : bool :=
  match c with
  | BcryptHash _ _ => true
  | _ => false
  end.

Definition is_insert_call (c : Call) : bool :=
  match c with
  | UsersInsert _ | TranscriptionsInsert _ => true
  | _ => false
  end.

End Providers.
Export Providers.

(* ===================================================================== *)
(** ** await, throw, try/catch *)
(* ===================================================================== *)

Module Async.

(** A computation that ends with a value, ends by throwing, or is waiting
    for the outcome of a call. *)
Inductive Prog (A : Type) : Type :=
| Ret (a : A)
| Throw (e : JsVal)
| Await (c : Call) (k : Outcome -> Prog A).
Arguments Ret {A} a.
Arguments Throw {A} e.
Arguments Await {A} c k.

Fixpoint bind {A B : Type} (p : Prog A) (f : A -> Prog B) : Prog B :=
  match p with
  | Ret a => f a
  | Throw e => Throw e
  | Await c k => Await c (fun o => bind (k o) f)
  end.

(** [try { p } catch (error) { h error }] *)
Fixpoint try_catch {A : Type} (p : Prog A) (h : JsVal -> Prog A) : Prog A :=
  match p with
  | Ret a => Ret a
  | Throw e => h e
  | Await c k => Await c (fun o => try_catch (k o) h)
  end.

(** [await c]: a rejection is thrown at the await. *)
Definition await (c : Call) : Prog JsVal :=
  Await c (fun o => match o with
                    | Resolved v => Ret v
                    | Rejected e => Throw e
                    end).

(** A synchronous call [c]: it returns or throws. *)
Definition call (c : Call) : Prog JsVal := await c.

(** An expression that may throw, inside a computation. *)
Definition eval {A : Type} (x : Eval A) : Prog A :=
  match x with
  | Value a => Ret a
  | Raise e => Throw e
  end.

(** [v.key] *)
Definition field (v : JsVal) (key : string) : Prog JsVal := eval (get_field v key).

(** [const { key } = v] *)
Definition destructure (source : string) (v : JsVal) (key : string) : Prog JsVal :=
  eval (get_destructured source v key).

(** [v[i]] *)
Definition index (v : JsVal) (i : nat) : Prog JsVal := eval (get_index v i).

(** [v?. ...rest]: a nullish [v] ends the whole chain with [undefined]. *)
Definition opt_chain (v : JsVal) (rest : JsVal -> Prog JsVal) : Prog JsVal :=
  if nullish v then Ret VUndef else rest v.

(** How an async handler ends: a response was sent, or the handler's
    promise rejected with nothing sent. *)
Inductive Completion (A : Type) : Type :=
| Sent (a : A)
| Unhandled (e : JsVal).
Arguments Sent {A} a.
Arguments Unhandled {A} e.

(** Run against an oracle; the calls made come back in order. *)
Fixpoint run {A : Type} (p : Prog A) (env : Oracle) : Completion A * list Call :=
  match p with
  | Ret a => (Sent a, [])
  | Throw e => (Unhandled e, [])
  | Await c k => let (r, t) := run (k (env c)) env in (r, c :: t)
  end.

Definition result {A : Type} (p : Prog A) (env : Oracle) : Completion A := fst (run p env).
Definition trace {A : Type} (p : Prog A) (env : Oracle) : list Call := snd (run p env).

End Async.
Export Async.

Declare Scope prog_scope.
Delimit Scope prog_scope with prog.
Notation "x <- p ;; q" := (bind p (fun x => q))
  (at level 61, p at next level, right associativity) : prog_scope.

(* ===================================================================== *)
(** ** The route handlers *)
(* ===================================================================== *)

Module Server.

Local Open Scope prog_scope.

(** [req.file], as multer's memory storage sets it. *)
Record File : Type := {
  originalname : string;
  buffer : list Byte.byte;
  mimetype : string
}.

(** The upload middleware attaches a file only when its part carries a
    filename: [originalname] of an attached file is not empty. *)
Definition has_name (file : File) : bool :=
  negb (String.eqb (originalname file) EmptyString).

(** What [res.status(s).json(b)] sends; [res.json(b)] sends status 200.
    [body] is the value handed to [json], before it is serialised. *)
Record Response : Type := { status : Z; body : JsVal }.

Definition res_status_json (s : Z) (b : JsVal) : Prog Response :=
  Ret {| status := s; body := b |}.

Definition res_json (b : JsVal) : Prog Response := res_status_json 200 b.

(** [const uuidRegex = /^[0-9a-fA-F-]{36}$/] *)
Definition uuidRegex : Regex.Pattern :=
  {| Regex.cls := [Regex.Range "0" "9"; Regex.Range "a" "f";
                   Regex.Range "A" "F"; Regex.Single "-"];
     Regex.count := 36 |}.

(** [app.post('/signup', ...)]; the argument is [req.body]. *)
Definition signup (req_body : JsVal) : Prog Response :=
  try_catch
    (email <- destructure "req.body" req_body "email" ;;
     password <- destructure "req.body" req_body "password" ;;
     name <- destructure "req.body" req_body "name" ;;
     found <- await (UsersSelectByEmail email) ;;
     existingUser <- destructure "(intermediate value)" found "data" ;;
     userError <- destructure "(intermediate value)" found "error" ;;
     if truthy existingUser then
       res_status_json 400 (VObj [("error", VStr "User already exists")])
     else
       hashedPassword <- await (BcryptHash password 10) ;;
       inserted <- await (UsersInsert
                            (VObj [("email", email);
                                   ("password", hashedPassword);
                                   ("name", name)])) ;;
       newUser <- destructure "(intermediate value)" inserted "data" ;;
       insertError <- destructure "(intermediate value)" inserted "error" ;;
       if truthy insertError then Throw insertError
       else
         res_json (VObj [("message", VStr "Signup successful!");
                         ("user", newUser)]))
    (fun error =>
       details <- field error "message" ;;
       res_status_json 500 (VObj [("error", VStr "Error during signup");
                                  ("details", details)])).

(** [app.post('/login', ...)]; the argument is [req.body]. *)
Definition login (req_body : JsVal) : Prog Response :=
  try_catch
    (email <- destructure "req.body" req_body "email" ;;
     password <- destructure "req.body" req_body "password" ;;
     found <- await (UsersSelectByEmail email) ;;
     user <- destructure "(intermediate value)" found "data" ;;
     userError <- destructure "(intermediate value)" found "error" ;;
     if negb (truthy user) then
       res_status_json 400 (VObj [("error", VStr "Invalid email or password")])
     else
       stored <- field user "password" ;;
       isMatch <- await (BcryptCompare password stored) ;;
       if negb (truthy isMatch) then
         res_status_json 400 (VObj [("error", VStr "Invalid email or password")])
       else
         user_id <- field user "id" ;;
         user_email <- field user "email" ;;
         user_name <- field user "name" ;;
         res_json (VObj [("success", VBool true);
                         ("message", VStr "Login successful!");
                         ("user", VObj [("id", user_id);
                                        ("email", user_email);
                                        ("name", user_name)])]))
    (fun error =>
       details <- field error "message" ;;
       res_status_json 500 (VObj [("error", VStr "Error during login");
                                  ("details", details)])).

(** [app.post('/upload', upload.single('audio'), ...)]; [bucket] is
    [process.env.SUPABASE_BUCKET], [now] is [Date.now()], [req_file] is
    [req.file]. *)
Definition upload (bucket : JsVal) (now : Z) (req_file : option File) : Prog Response :=
  try_catch
    (match req_file with
     | None => res_status_json 400 (VObj [("error", VStr "No file uploaded")])
     | Some file =>
         uploaded <- await (StorageUpload bucket
                              ("audio/" ++ number_to_string now ++ "_" ++ originalname file)
                              (buffer file)
                              (VObj [("contentType", VStr (mimetype file))])) ;;
         data <- destructure "(intermediate value)" uploaded "data" ;;
         error <- destructure "(intermediate value)" uploaded "error" ;;
         if truthy error then
           details <- field error "message" ;;
           res_status_json 500 (VObj [("error", VStr "Failed to upload to Supabase");
                                      ("details", details)])
         else
           path <- field data "path" ;;
           location <- call (StorageGetPublicUrl bucket path) ;;
           publicUrl <- destructure "supabase.storage.from(...).getPublicUrl(...)"
                        location "publicUrl" ;;
           res_json (VObj [("message", VStr "Audio uploaded successfully!");
                           ("fileURL", publicUrl)])
     end)
    (fun error =>
       details <- field error "message" ;;
       res_status_json 500 (VObj [("error", VStr "Error uploading audio");
                                  ("details", details)])).

(** [result?.results?.channels[0]?.alternatives[0]?.transcript] *)
Definition transcript_chain (result : JsVal) : Prog JsVal :=
  opt_chain result (fun result =>
    results <- field result "results" ;;
    opt_chain results (fun results =>
      channels <- field results "channels" ;;
      channel0 <- index channels 0 ;;
      opt_chain channel0 (fun channel0 =>
        alternatives <- field channel0 "alternatives" ;;
        alternative0 <- index alternatives 0 ;;
        opt_chain alternative0 (fun alternative0 =>
          field alternative0 "transcript")))).

(** [app.post('/transcribe', upload.single('audio'), ...)]; the arguments
    are [req.file] and [req.body]. *)
Definition transcribe (req_file : option File) (req_body : JsVal) : Prog Response :=
  try_catch
    (match req_file with
     | None => res_status_json 400 (VObj [("error", VStr "No file uploaded")])
     | Some file =>
         userId <- destructure "req.body" req_body "userId" ;;
         if negb (truthy userId) then
           res_status_json 400 (VObj [("error", VStr "User ID is required")])
         else
           matched <- eval (Regex.test uuidRegex userId) ;;
           if negb matched then
             res_status_json 400 (VObj [("error", VStr "Invalid UUID format for userId")])
           else
             answer <- await (DeepgramTranscribeFile (buffer file)
                                (VObj [("model", VStr "nova-3");
                                       ("smart_format", VBool true);
                                       ("mimetype", VStr (mimetype file))])) ;;
             result <- destructure "(intermediate value)" answer "result" ;;
             error <- destructure "(intermediate value)" answer "error" ;;
             if truthy error then Throw (new_Error "Failed to transcribe audio.")
             else
               found <- transcript_chain result ;;
               let transcript := js_or found (VStr "No transcript available") in
               saved <- await (TranscriptionsInsert
                                 (VObj [("user_id", userId);
                                        ("transcript", transcript);
                                        ("file_url", js_or (VStr (originalname file))
                                                           (VStr "unknown_filename"))])) ;;
               savedTranscription <- destructure "(intermediate value)" saved "data" ;;
               saveError <- destructure "(intermediate value)" saved "error" ;;
               if truthy saveError then Throw (new_Error "Failed to save transcription.")
               else
                 res_json (VObj [("message", VStr "Transcription successful!");
                                 ("transcript", transcript);
                                 ("savedTranscription", savedTranscription)])
     end)
    (fun error =>
       details <- field error "message" ;;
       res_status_json 500 (VObj [("error", VStr "Error transcribing audio");
                                  ("details", details)])).

(** [app.get('/transcriptions/:userId', ...)]; the argument is
    [req.params.userId]. *)
Definition transcriptions (userId : JsVal) : Prog Response :=
  try_catch
    (if negb (truthy userId) then
       res_status_json 400 (VObj [("error", VStr "User ID is required")])
     else
       listed <- await (TranscriptionsSelectByUser userId) ;;
       rows <- destructure "(intermediate value)" listed "data" ;;
       error <- destructure "(intermediate value)" listed "error" ;;
       if truthy error then
         details <- field error "message" ;;
         res_status_json 500 (VObj [("error", VStr "Database query failed");
                                    ("details", details)])
       else
         res_json (VObj [("success", VBool true); ("transcriptions", rows)]))
    (fun error =>
       details <- field error "message" ;;
       res_status_json 500 (VObj [("error", VStr "Internal server error");
                                  ("details", details)])).

(** [app.get('/', ...)] *)
Definition root : Prog Response :=
  res_json (VStr "Server is live and running on port 5500").

(** The routes the server registers, each with what its handler looks at. *)
Inductive Request : Type :=
| PostSignup (req_body : JsVal)
| PostLogin (req_body : JsVal)
| PostUpload (bucket : JsVal) (now : Z) (req_file : option File)
| PostTranscribe (req_file : option File) (req_body : JsVal)
| GetTranscriptions (userId : JsVal)
| GetRoot.

Definition handle (req : Request) : Prog Response :=
  match req with
  | PostSignup req_body => signup req_body
  | PostLogin req_body => login req_body
  | PostUpload bucket now req_file => upload bucket now req_file
  | PostTranscribe req_file req_body => transcribe req_file req_body
  | GetTranscriptions userId => transcriptions userId
  | GetRoot => root
  end.

(** The [error] text each handler's catch block answers with. *)
Definition catch_label (req : Request) : string :=
  match req with
  | PostSignup _ => "Error during signup"
  | PostLogin _ => "Error during login"
  | PostUpload _ _ _ => "Error uploading audio"
  | PostTranscribe _ _ => "Error transcribing audio"
  | GetTranscriptions _ => "Internal server error"
  | GetRoot => EmptyString
  end.

(** The call expressions, with their arguments, as the handlers build them. *)
Definition upload_call (bucket : JsVal) (now : Z) (file : File) : Call :=
  StorageUpload bucket
    ("audio/" ++ number_to_string now ++ "_" ++ originalname file)
    (buffer file)
    (VObj [("contentType", VStr (mimetype file))]).

Definition transcribe_call (file : File) : Call :=
  DeepgramTranscribeFile (buffer file)
    (VObj [("model", VStr "nova-3");
           ("smart_format", VBool true);
           ("mimetype", VStr (mimetype file))]).

Definition user_row (req_body hashedPassword : JsVal) : JsVal :=
  VObj [("email", prop req_body "email");
        ("password", hashedPassword);
        ("name", prop req_body "name")].

Definition transcription_row (file : File) (req_body transcript : JsVal) : JsVal :=
  VObj [("user_id", prop req_body "userId");
        ("transcript", transcript);
        ("file_url", js_or (VStr (originalname file)) (VStr "unknown_filename"))].

End Server.
Export Server.

(* ===================================================================== *)
(** ** What the outside services answered *)
(* ===================================================================== *)

Module Answers.

(** The user lookup resolved and its [data] is falsy: no user was found
    (the query's own [error], if any, is not looked at by the handlers). *)
Definition finds_no_user (env : Oracle) (email : JsVal) : bool :=
  match env (UsersSelectByEmail email) with
  | Resolved found => negb (nullish found) && negb (truthy (prop found "data"))
  | Rejected _ => false
  end.

(** The user lookup resolved with a truthy [data]: the user record. *)
Definition finds_user (env : Oracle) (email : JsVal) : option JsVal :=
  match env (UsersSelectByEmail email) with
  | Resolved found => if truthy (prop found "data") then Some (prop found "data") else None
  | Rejected _ => None
  end.

(** [bcrypt.compare] resolved with a falsy verdict. *)
Definition password_mismatch (env : Oracle) (password user : JsVal) : bool :=
  match env (BcryptCompare password (prop user "password")) with
  | Resolved verdict => negb (truthy verdict)
  | Rejected _ => false
  end.

(** [bcrypt.compare] resolved with a truthy verdict. *)
Definition password_match (env : Oracle) (password user : JsVal) : bool :=
  match env (BcryptCompare password (prop user "password")) with
  | Resolved verdict => truthy verdict
  | Rejected _ => false
  end.

(** A call answered in the [{ data, error }] or [{ result, error }] style
    with a truthy [error]: the reported error. *)
Definition reports_error (env : Oracle) (c : Call) : option JsVal :=
  match env c with
  | Resolved answer => if truthy (prop answer "error") then Some (prop answer "error") else None
  | Rejected _ => None
  end.

(** A call answered in that style with a falsy [error]: the [payload] field
    ([data] or [result]) of the answer. *)
Definition succeeds_with (env : Oracle) (c : Call) (payload : string) : option JsVal :=
  match env c with
  | Resolved answer =>
      if negb (nullish answer) && negb (truthy (prop answer "error"))
      then Some (prop answer payload) else None
  | Rejected _ => None
  end.

End Answers.
Export Answers.

(* ===================================================================== *)
(** ** The properties, in the words of the specification *)
(* ===================================================================== *)

Module Spec.

(** The status of the response, when one was sent. *)
Definition status_of (c : Completion Response) : option Z :=
  match c with
  | Sent r => Some (status r)
  | Unhandled _ => None
  end.

(** A text field of a multipart body: absent, or a string. *)
Definition field_value (text : option string) : JsVal :=
  match text with
  | None => VUndef
  | Some s => VStr s
  end.

Definition hex_digits : list ascii := list_ascii_of_string "0123456789abcdefABCDEF".

Definition is_hex_digit (c : ascii) : bool := existsb (Ascii.eqb c) hex_digits.

Definition is_hyphen (c : ascii) : bool := Ascii.eqb c "-".

(** Exactly 36 characters, each a hex digit or a hyphen. *)
Definition well_formed_userId (s : string) : bool :=
  (String.length s =? 36)%nat
  && forallb (fun c => is_hex_digit c || is_hyphen c) (list_ascii_of_string s).

(** A value that consists of exactly 36 characters, each a hex digit or a
    hyphen: a string, and a well-formed one. *)
Definition is_well_formed_string (v : JsVal) : bool :=
  match v with
  | VStr s => well_formed_userId s
  | _ => false
  end.

(** The userId field is present and well formed. *)
Definition userId_acceptable (userId : option string) : bool :=
  match userId with
  | None => false
  | Some s => well_formed_userId s
  end.

(** The textual form of a UUID: hex digits in groups of 8, 4, 4, 4 and 12,
    with a hyphen between groups. *)
Fixpoint hex_run (n : nat) (s : string) : option string :=
  match n, s with
  | O, _ => Some s
  | S n', String c s' => if is_hex_digit c then hex_run n' s' else None
  | S _, EmptyString => None
  end.

Fixpoint hex_groups (groups : list nat) (s : string) : bool :=
  match groups with
  | [] => false
  | [n] => match hex_run n s with
           | Some EmptyString => true
           | _ => false
           end
  | n :: more =>
      match hex_run n s with
      | Some (String c rest) => is_hyphen c && hex_groups more rest
      | _ => false
      end
  end.

Definition is_uuid (s : string) : bool := hex_groups [8; 4; 4; 4; 12]%nat s.

(** A transcription result without a transcript: the first alternative of
    the first channel is absent or its transcript is absent or empty.  The
    channels and the alternatives of a channel are arrays, as the provider
    documents them. *)
Definition no_transcript (result : JsVal) : bool :=
  nullish result
  || nullish (prop result "results")
  || match prop (prop result "results") "channels" with
     | VArr [] => true
     | VArr (channel0 :: _) =>
         nullish channel0
         || match prop channel0 "alternatives" with
            | VArr [] => true
            | VArr (alternative0 :: _) =>
                nullish alternative0
                || negb (truthy (prop alternative0 "transcript"))
            | _ => false
            end
     | _ => false
     end.

(** The record the store hands back has the columns of the inserted row. *)
Definition returns_row (record row : JsVal) : Prop :=
  match row with
  | VObj columns => forall key value, lookup key columns = Some value -> prop record key = value
  | _ => False
  end.

(** A 500 response with an [error] label and [details]. *)
Definition error_500 (label : string) (details : JsVal) : Response :=
  {| status := 500; body := VObj [("error", VStr label); ("details", details)] |}.

(** How the failure of an outside call reaches the client: the request,
    the calls made, the response.

    - A call that rejects or throws with an error value: on every route the
      catch block answers 500 with that value's message.
    - A storage upload, a transcription listing or a user insert that
      reports an error in its answer: 500 with that error's message.
    - The transcription provider or the transcription insert reporting an
      error: 500 with the handler's own fixed text; the provider's message
      is not sent. *)
Inductive surfaces (env : Oracle) : Request -> list Call -> Response -> Prop :=
| call_rejects (req : Request) (c : Call) (e : JsVal) :
    In c (trace (handle req) env) ->
    env c = Rejected e ->
    nullish e = false ->
    surfaces env req (trace (handle req) env)
      (error_500 (catch_label req) (prop e "message"))
| upload_reports (bucket : JsVal) (now : Z) (file : File) (e : JsVal) :
    reports_error env (upload_call bucket now file) = Some e ->
    surfaces env (PostUpload bucket now (Some file))
      [upload_call bucket now file]
      (error_500 "Failed to upload to Supabase" (prop e "message"))
| listing_reports (userId e : JsVal) :
    truthy userId = true ->
    reports_error env (TranscriptionsSelectByUser userId) = Some e ->
    surfaces env (GetTranscriptions userId)
      [TranscriptionsSelectByUser userId]
      (error_500 "Database query failed" (prop e "message"))
| user_insert_reports (req_body hashedPassword e : JsVal) :
    nullish req_body = false ->
    finds_no_user env (prop req_body "email") = true ->
    env (BcryptHash (prop req_body "password") 10) = Resolved hashedPassword ->
    reports_error env (UsersInsert (user_row req_body hashedPassword)) = Some e ->
    surfaces env (PostSignup req_body)
      [UsersSelectByEmail (prop req_body "email");
       BcryptHash (prop req_body "password") 10;
       UsersInsert (user_row req_body hashedPassword)]
      (error_500 "Error during signup" (prop e "message"))
| transcription_reports (file : File) (req_body e : JsVal) :
    nullish req_body = false ->
    truthy (prop req_body "userId") = true ->
    Regex.test uuidRegex (prop req_body "userId") = Value true ->
    reports_error env (transcribe_call file) = Some e ->
    surfaces env (PostTranscribe (Some file) req_body)
      [transcribe_call file]
      (error_500 "Error transcribing audio" (VStr "Failed to transcribe audio."))
| transcription_insert_reports (file : File) (req_body result found e : JsVal) :
    nullish req_body = false ->
    truthy (prop req_body "userId") = true ->
    Regex.test uuidRegex (prop req_body "userId") = Value true ->
    succeeds_with env (transcribe_call file) "result" = Some result ->
    transcript_chain result = Ret found ->
    reports_error env
      (TranscriptionsInsert
         (transcription_row file req_body (js_or found (VStr "No transcript available"))))
      = Some e ->
    surfaces env (PostTranscribe (Some file) req_body)
      [transcribe_call file;
       TranscriptionsInsert
         (transcription_row file req_body (js_or found (VStr "No transcript available")))]
      (error_500 "Error transcribing audio" (VStr "Failed to save transcription.")).

End Spec.
Export Spec.

(* ===================================================================== *)
(** ** Sample requests and oracles *)
(* ===================================================================== *)

Module Samples.

(** An oracle that answers by the kind of call alone. *)
Record Script : Type := {
  on_users_select : Outcome;
  on_users_insert : Outcome;
  on_hash : Outcome;
  on_compare : Outcome;
  on_storage_upload : Outcome;
  on_public_url : Outcome;
  on_transcribe : Outcome;
  on_transcriptions_insert : Outcome;
  on_transcriptions_select : Outcome
}.

Definition play (s : Script) : Oracle :=
  fun c =>
    match c with
    | UsersSelectByEmail _ => on_users_select s
    | UsersInsert _ => on_users_insert s
    | BcryptHash _ _ => on_hash s
    | BcryptCompare _ _ => on_compare s
    | StorageUpload _ _ _ _ => on_storage_upload s
    | StorageGetPublicUrl _ _ => on_public_url s
    | DeepgramTranscribeFile _ _ => on_transcribe s
    | TranscriptionsInsert _ => on_transcriptions_insert s
    | TranscriptionsSelectByUser _ => on_transcriptions_select s
    end.

(** [{ data, error: null }] and [{ data: null, error: { message } }] *)
Definition ok_data (data : JsVal) : Outcome :=
  Resolved (VObj [("data", data); ("error", VNull)]).

Definition failed (message : string) : Outcome :=
  Resolved (VObj [("data", VNull); ("error", VObj [("message", VStr message)])]).

(** [{ result, error: null }] and [{ result: null, error }] of the Deepgram client *)
Definition ok_result (result : JsVal) : Outcome :=
  Resolved (VObj [("result", result); ("error", VNull)]).

Definition failed_result (message : string) : Outcome :=
  Resolved (VObj [("result", VNull); ("error", VObj [("message", VStr message)])]).

Definition digest : JsVal := VStr "$2a$10$N9qo8uLOickgx2ZMRZoMyeIjZAgcfl7p92ldGxad68LJZdL17lhWy".

Definition ada : JsVal :=
  VObj [("id", VNum 7); ("email", VStr "ada@example.org");
        ("password", digest); ("name", VStr "Ada")].

(** A result with one channel, one alternative and the given transcript. *)
Definition result_with (transcript : JsVal) : JsVal :=
  VObj [("results",
         VObj [("channels",
                VArr [VObj [("alternatives",
                             VArr [VObj [("transcript", transcript);
                                         ("confidence", VNum 0)]])]])])].

(** Every service answers; the store knows no user. *)
Definition quiet : Script :=
  {| on_users_select := failed "JSON object requested, multiple (or no) rows returned";
     on_users_insert := ok_data ada;
     on_hash := Resolved digest;
     on_compare := Resolved (VBool true);
     on_storage_upload := ok_data (VObj [("path", VStr "audio/1700000000000_hello.wav")]);
     on_public_url := Resolved (VObj [("publicUrl", VStr "https://cdn.example.org/hello.wav")]);
     on_transcribe := ok_result (result_with (VStr "hello world"));
     on_transcriptions_insert := ok_data VNull;
     on_transcriptions_select := ok_data (VArr []) |}.

Definition with_users_select (o : Outcome) (s : Script) : Script :=
  {| on_users_select := o; on_users_insert := on_users_insert s; on_hash := on_hash s;
     on_compare := on_compare s; on_storage_upload := on_storage_upload s;
     on_public_url := on_public_url s; on_transcribe := on_transcribe s;
     on_transcriptions_insert := on_transcriptions_insert s;
     on_transcriptions_select := on_transcriptions_select s |}.

Definition with_users_insert (o : Outcome) (s : Script) : Script :=
  {| on_users_select := on_users_select s; on_users_insert := o; on_hash := on_hash s;
     on_compare := on_compare s; on_storage_upload := on_storage_upload s;
     on_public_url := on_public_url s; on_transcribe := on_transcribe s;
     on_transcriptions_insert := on_transcriptions_insert s;
     on_transcriptions_select := on_transcriptions_select s |}.

Definition with_hash (o : Outcome) (s : Script) : Script :=
  {| on_users_select := on_users_select s; on_users_insert := on_users_insert s; on_hash := o;
     on_compare := on_compare s; on_storage_upload := on_storage_upload s;
     on_public_url := on_public_url s; on_transcribe := on_transcribe s;
     on_transcriptions_insert := on_transcriptions_insert s;
     on_transcriptions_select := on_transcriptions_select s |}.

Definition with_storage_upload (o : Outcome) (s : Script) : Script :=
  {| on_users_select := on_users_select s; on_users_insert := on_users_insert s;
     on_hash := on_hash s; on_compare := on_compare s; on_storage_upload := o;
     on_public_url := on_public_url s; on_transcribe := on_transcribe s;
     on_transcriptions_insert := on_transcriptions_insert s;
     on_transcriptions_select := on_transcriptions_select s |}.

Definition with_compare (o : Outcome) (s : Script) : Script :=
  {| on_users_select := on_users_select s; on_users_insert := on_users_insert s;
     on_hash := on_hash s; on_compare := o; on_storage_upload := on_storage_upload s;
     on_public_url := on_public_url s; on_transcribe := on_transcribe s;
     on_transcriptions_insert := on_transcriptions_insert s;
     on_transcriptions_select := on_transcriptions_select s |}.

Definition with_transcribe (o : Outcome) (s : Script) : Script :=
  {| on_users_select := on_users_select s; on_users_insert := on_users_insert s;
     on_hash := on_hash s; on_compare := on_compare s;
     on_storage_upload := on_storage_upload s; on_public_url := on_public_url s;
     on_transcribe := o; on_transcriptions_insert := on_transcriptions_insert s;
     on_transcriptions_select := on_transcriptions_select s |}.

Definition with_transcriptions_insert (o : Outcome) (s : Script) : Script :=
  {| on_users_select := on_users_select s; on_users_insert := on_users_insert s;
     on_hash := on_hash s; on_compare := on_compare s;
     on_storage_upload := on_storage_upload s; on_public_url := on_public_url s;
     on_transcribe := on_transcribe s; on_transcriptions_insert := o;
     on_transcriptions_select := on_transcriptions_select s |}.

Definition credentials (email password : string) : JsVal :=
  VObj [("email", VStr email); ("password", VStr password)].

Definition registration (email : string) (password : JsVal) (name : string) : JsVal :=
  VObj [("email", VStr email); ("password", password); ("name", VStr name)].

Definition hello_wav : File :=
  {| originalname := "hello.wav"; buffer := [Byte.x52; Byte.x49; Byte.x46; Byte.x46];
     mimetype := "audio/wav" |}.

Definition a_uuid : string := "123e4567-e89b-12d3-a456-426614174000".
Definition hyphens36 : string := "------------------------------------".
Definition hex36 : string := "0123456789abcdef0123456789ABCDEF0123".

Definition with_userId (userId : string) : JsVal := VObj [("userId", VStr userId)].

End Samples.
Export Samples.

(* ===================================================================== *)
(** ** Vocabulary for the properties of whole routes *)
(* ===================================================================== *)

Module Routes.

(** The statuses the handlers write: [res.json] (200) and the literals
    400 and 500. *)
Definition known_status (s : Z) : bool := (s =? 200) || (s =? 400) || (s =? 500).

(** The services a route's handler names in its body. *)
Definition route_may_call (req : Request) (c : Call) : bool :=
  match req, c with
  | PostSignup _, (UsersSelectByEmail _ | BcryptHash _ _ | UsersInsert _) => true
  | PostLogin _, (UsersSelectByEmail _ | BcryptCompare _ _) => true
  | PostUpload _ _ _, (StorageUpload _ _ _ _ | StorageGetPublicUrl _ _) => true
  | PostTranscribe _ _, (DeepgramTranscribeFile _ _ | TranscriptionsInsert _) => true
  | GetTranscriptions _, TranscriptionsSelectByUser _ => true
  | _, _ => false
  end.

(** Calls that only read the users table or compare a password. *)
Definition is_credential_check (c : Call) : bool :=
  match c with
  | UsersSelectByEmail _ | BcryptCompare _ _ => true
  | _ => false
  end.

(** The storage key of an upload: [`audio/${Date.now()}_${originalname}`]. *)
Definition upload_key (now : Z) (name : string) : string :=
  "audio/" ++ number_to_string now ++ "_" ++ name.

(** The world [env], except that the user lookup resolves to [found]. *)
Definition lookup_answers (found : JsVal) (env : Oracle) : Oracle :=
  fun c =>
    match c with
    | UsersSelectByEmail _ => Resolved found
    | _ => env c
    end.

(** The first alternative of the first channel of a transcription result,
    when the result has one. *)
Definition first_alternative (result : JsVal) : option JsVal :=
  if nullish result || nullish (prop result "results") then None
  else
    match prop (prop result "results") "channels" with
    | VArr (channel0 :: _) =>
        if nullish channel0 then None
        else
          match prop channel0 "alternatives" with
          | VArr (alternative0 :: _) =>
              if nullish alternative0 then None else Some alternative0
          | _ => None
          end
    | _ => None
    end.

Definition has_underscore (s : string) : bool :=
  existsb (Ascii.eqb "_") (list_ascii_of_string s).

(** The range of [Date.now()]: milliseconds since the epoch, up to the
    largest time value. *)
Definition is_time_value (now : Z) : bool :=
  (0 <=? now) && (now <=? 8640000000000000).

End Routes.
Export Routes.

(* ===================================================================== *)
(** ** Basic facts *)
(* ===================================================================== *)

Lemma get_field_prop (v : JsVal) (key : string) :
  nullish v = false -> get_field v key = Value (prop v key).
Proof. destruct v; simpl; intros H; try reflexivity; discriminate H. Qed.

Lemma truthy_not_nullish (v : JsVal) : truthy v = true -> nullish v = false.
Proof. destruct v; simpl; intros H; try reflexivity; discriminate H. Qed.

Lemma prop_truthy_not_nullish (v : JsVal) (key : string) :
  truthy (prop v key) = true -> nullish v = false.
Proof. destruct v; simpl; intros H; try reflexivity; discriminate H. Qed.

Lemma field_prop (v : JsVal) (key : string) :
  nullish v = false -> field v key = Ret (prop v key).
Proof. intros H. unfold field. rewrite get_field_prop by exact H. reflexivity. Qed.

Create HintDb js.
#[local] Hint Resolve truthy_not_nullish prop_truthy_not_nullish : js.

(** One step of a handler: unfold the control operators, leaving the
    JavaScript values alone. *)
Ltac steps :=
  cbn [run bind try_catch await call eval res_status_json res_json fst snd negb].

Lemma get_field_cases (v : JsVal) (key : string) :
  get_field v key =
    if nullish v then Raise (TypeError_read (is_null v) key) else Value (prop v key).
Proof. destruct v; reflexivity. Qed.

Lemma nullish_TypeError_read (b : bool) (key : string) :
  nullish (TypeError_read b key) = false.
Proof. reflexivity. Qed.

Lemma nullish_new_Error (msg : string) : nullish (new_Error msg) = false.
Proof. reflexivity. Qed.

Lemma get_destructured_cases (source : string) (v : JsVal) (key : string) :
  get_destructured source v key =
    if nullish v then Raise (TypeError_destructure (is_null v) source key)
    else Value (prop v key).
Proof. destruct v; reflexivity. Qed.

Lemma destructure_prop (source : string) (v : JsVal) (key : string) :
  nullish v = false -> destructure source v key = Ret (prop v key).
Proof.
  intros H. unfold destructure. rewrite get_destructured_cases, H. reflexivity.
Qed.

Lemma nullish_TypeError_destructure (b : bool) (source key : string) :
  nullish (TypeError_destructure b source key) = false.
Proof. reflexivity. Qed.

Lemma nullish_TypeError_convert : nullish TypeError_convert = false.
Proof. reflexivity. Qed.

(** Induction on values that goes into the items of an array. *)
Lemma JsVal_items_ind (P : JsVal -> Prop) :
  P VUndef -> P VNull -> (forall b, P (VBool b)) -> (forall n, P (VNum n)) ->
  (forall s, P (VStr s)) ->
  (forall items, Forall P items -> P (VArr items)) ->
  (forall fields, P (VObj fields)) ->
  forall v, P v.
Proof.
  intros Hundef Hnull Hbool Hnum Hstr Harr Hobj.
  fix IH 1. intros [| |b|n|s|items|fields].
  - exact Hundef.
  - exact Hnull.
  - apply Hbool.
  - apply Hnum.
  - apply Hstr.
  - apply Harr. induction items as [|x rest IHrest]; constructor;
      [apply IH | exact IHrest].
  - apply Hobj.
Qed.

Lemma join_items_raises (item_string : JsVal -> Eval string) (thrown : JsVal)
    (items : list JsVal) :
  Forall (fun x => forall e, item_string x = Raise e -> e = thrown) items ->
  forall e, join_items item_string items = Raise e -> e = thrown.
Proof.
  induction 1 as [|x rest Hx Hrest IH]; intros e H; [discriminate H|].
  destruct rest as [|y rest].
  - exact (Hx e H).
  - cbn [join_items] in H. destruct (item_string x) eqn:Hitem.
    + change (match join_items item_string (y :: rest) with
              | Raise e0 => Raise e0
              | Value others => Value (a ++ "," ++ others)
              end = Raise e) in H.
      destruct (join_items item_string (y :: rest)) eqn:Hjoin; [discriminate H|].
      injection H as <-. exact (IH _ eq_refl).
    + injection H as <-. exact (Hx _ eq_refl).
Qed.

(** The only error a conversion to a string throws. *)
Lemma to_string_raises (v e : JsVal) :
  to_string v = Raise e -> e = TypeError_convert.
Proof.
  revert e. induction v as [| |b|n|s|items IH|fields] using JsVal_items_ind;
    intros e H; try discriminate H.
  - destruct b; discriminate H.
  - cbn [to_string] in H. revert e H. apply join_items_raises.
    induction IH as [|x rest Hx _ IHrest]; constructor; [|exact IHrest].
    intros e H. destruct (nullish x); [discriminate H | exact (Hx e H)].
  - injection H as <-. reflexivity.
Qed.

Lemma regex_test_raises (p : Regex.Pattern) (v e : JsVal) :
  Regex.test p v = Raise e -> e = TypeError_convert.
Proof.
  unfold Regex.test. destruct (to_string v) eqn:H; [discriminate|].
  intros [= <-]. exact (to_string_raises _ _ H).
Qed.

(** Follow every path of a handler: split on each answer of the oracle and
    on each test the handler makes, reusing what is already known. *)
Ltac explore_step :=
  match goal with
  | |- context [nullish (TypeError_read ?b ?k)] => rewrite (nullish_TypeError_read b k)
  | |- context [nullish (new_Error ?m)] => rewrite (nullish_new_Error m)
  | |- context [nullish (TypeError_destructure ?b ?src ?k)] =>
      rewrite (nullish_TypeError_destructure b src k)
  | |- context [nullish TypeError_convert] => rewrite nullish_TypeError_convert
  | H : nullish ?v = _ |- context [nullish ?v] => rewrite H
  | H : truthy ?v = true |- context [nullish ?v] => rewrite (truthy_not_nullish v H)
  | H : truthy ?v = _ |- context [truthy ?v] => rewrite H
  | H : ?env ?c = _ |- context [?env ?c] => rewrite H
  | |- context [get_field ?v ?k] => rewrite (get_field_cases v k)
  | |- context [get_destructured ?src ?v ?k] => rewrite (get_destructured_cases src v k)
  | |- context [if nullish ?v then _ else _] => destruct (nullish v) eqn:?
  | |- context [if truthy ?v then _ else _] => destruct (truthy v) eqn:?
  | |- context [if negb (truthy ?v) then _ else _] => destruct (truthy v) eqn:?
  | |- context [match ?env ?c with Resolved _ => _ | Rejected _ => _ end] =>
      destruct (env c) eqn:?
  | |- context [eval (Regex.test ?p ?v)] =>
      let matched := fresh "matched" in
      let raised := fresh "raised" in
      let Htest := fresh "Htest" in
      destruct (Regex.test p v) as [matched|raised] eqn:Htest;
      [ destruct matched
      | pose proof (regex_test_raises _ _ _ Htest); subst raised ]
  | |- context [if negb ?b then _ else _] => destruct b eqn:?
  end.

Ltac explore :=
  unfold field, destructure, index, get_index, opt_chain;
  steps; repeat (explore_step; steps).

(** Read the fields of values known not to be nullish, then step. *)
Ltac reads :=
  steps;
  repeat (first [ rewrite field_prop by eauto with js
                | rewrite destructure_prop by eauto with js ];
          steps).

(* ===================================================================== *)
(** ** POST /signup *)
(* ===================================================================== *)

(** C7. A signup whose user lookup finds a record for the email is answered
    400 [{error: 'User already exists'}]; the lookup is the only call made:
    no hash is computed and nothing is inserted. *)
Theorem signup_existing_user_rejected
    (req_body : JsVal) (env : Oracle) (existingUser : JsVal) :
  nullish req_body = false ->
  finds_user env (prop req_body "email") = Some existingUser ->
  run (signup req_body) env =
    (Sent {| status := 400; body := VObj [("error", VStr "User already exists")] |},
     [UsersSelectByEmail (prop req_body "email")])
  /\ existsb is_hash_call (trace (signup req_body) env) = false
  /\ existsb is_insert_call (trace (signup req_body) env) = false.
Proof.
  intros Hbody Hfound.
  unfold finds_user in Hfound.
  destruct (env (UsersSelectByEmail (prop req_body "email"))) as [found|] eqn:Henv;
    [|discriminate].
  destruct (truthy (prop found "data")) eqn:Hdata; [|discriminate].
  assert (run (signup req_body) env =
    (Sent {| status := 400; body := VObj [("error", VStr "User already exists")] |},
     [UsersSelectByEmail (prop req_body "email")])) as Hrun.
  { unfold signup. reads. rewrite Henv. reads. rewrite Hdata. reflexivity. }
  unfold trace. rewrite Hrun. repeat split.
Qed.

Lemma signup_existing_user_rejected_witness :
  run (signup (registration "ada@example.org" (VStr "s3cret") "Ada"))
      (play (with_users_select (ok_data ada) quiet)) =
    (Sent {| status := 400; body := VObj [("error", VStr "User already exists")] |},
     [UsersSelectByEmail (VStr "ada@example.org")])
  /\ existsb is_hash_call
       (trace (signup (registration "ada@example.org" (VStr "s3cret") "Ada"))
              (play (with_users_select (ok_data ada) quiet))) = false
  /\ existsb is_insert_call
       (trace (signup (registration "ada@example.org" (VStr "s3cret") "Ada"))
              (play (with_users_select (ok_data ada) quiet))) = false.
Proof.
  apply (signup_existing_user_rejected
           (registration "ada@example.org" (VStr "s3cret") "Ada")
           (play (with_users_select (ok_data ada) quiet)) ada);
    reflexivity.
Defined.


(** C10. A signup with no password in the body, for an email the lookup
    does not find, is never answered 400: the handler checks no field and
    calls [bcrypt.hash] with [undefined]; when that call fails, as bcryptjs
    does on a value that is not a string, the catch block answers 500 with
    the error's message. *)
Theorem signup_missing_password_is_500
    (req_body : JsVal) (env : Oracle) :
  nullish req_body = false ->
  prop req_body "password" = VUndef ->
  finds_no_user env (prop req_body "email") = true ->
  status_of (result (signup req_body) env) <> Some 400
  /\ (exists more,
        trace (signup req_body) env =
          UsersSelectByEmail (prop req_body "email") :: BcryptHash VUndef 10 :: more)
  /\ forall e,
       env (BcryptHash VUndef 10) = Rejected e ->
       nullish e = false ->
       run (signup req_body) env =
         (Sent {| status := 500;
                  body := VObj [("error", VStr "Error during signup");
                                ("details", prop e "message")] |},
          [UsersSelectByEmail (prop req_body "email"); BcryptHash VUndef 10]).
Proof.
  intros Hbody Hpw Hnone.
  unfold finds_no_user in Hnone.
  destruct (env (UsersSelectByEmail (prop req_body "email"))) as [found|] eqn:Hsel;
    [|discriminate].
  apply andb_prop in Hnone. destruct Hnone as [Hfound Hdata].
  apply negb_true_iff in Hfound, Hdata.
  unfold result, trace, signup. explore.
  all: repeat split; try (simpl; discriminate); try (eexists; reflexivity);
    intros e' He' Hnn; inversion He'; subst; congruence.
Qed.

Lemma signup_missing_password_is_500_witness :
  status_of (result (signup (VObj [("email", VStr "bob@example.org"); ("name", VStr "Bob")]))
                    (play (with_hash (Rejected (new_Error "Illegal arguments: undefined, number"))
                                     quiet)))
    = Some 500.
Proof.
  destruct (signup_missing_password_is_500
              (VObj [("email", VStr "bob@example.org"); ("name", VStr "Bob")])
              (play (with_hash (Rejected (new_Error "Illegal arguments: undefined, number"))
                               quiet))
              eq_refl eq_refl eq_refl) as [_ [_ Hrun]].
  unfold result.
  rewrite (Hrun (new_Error "Illegal arguments: undefined, number") eq_refl eq_refl).
  reflexivity.
Defined.

(** C6. The response of a successful signup is 200 with, as [user], the
    record the store's insert handed back, unchanged: when that record has
    the columns of the inserted row it includes the password digest.  The
    row given to the store holds the digest [bcrypt.hash] resolved to, and
    the response and the row depend on the request's password through that
    digest only: the plaintext is neither stored nor returned. *)
Theorem signup_success_returns_store_record
    (req_body : JsVal) (env : Oracle) (resp : Response) :
  result (signup req_body) env = Sent resp ->
  status resp = 200 ->
  exists digest newUser,
    let row := VObj [("email", prop req_body "email");
                     ("password", digest);
                     ("name", prop req_body "name")] in
    env (BcryptHash (prop req_body "password") 10) = Resolved digest
    /\ trace (signup req_body) env =
         [UsersSelectByEmail (prop req_body "email");
          BcryptHash (prop req_body "password") 10;
          UsersInsert row]
    /\ succeeds_with env (UsersInsert row) "data" = Some newUser
    /\ body resp = VObj [("message", VStr "Signup successful!"); ("user", newUser)]
    /\ (returns_row newUser row ->
        prop (prop (body resp) "user") "password" = digest)
    /\ (forall other_body,
          nullish other_body = false ->
          prop other_body "email" = prop req_body "email" ->
          prop other_body "name" = prop req_body "name" ->
          env (BcryptHash (prop other_body "password") 10) = Resolved digest ->
          run (signup other_body) env =
            (Sent resp,
             [UsersSelectByEmail (prop req_body "email");
              BcryptHash (prop other_body "password") 10;
              UsersInsert row])).
Proof.
  unfold result, trace, signup. explore.
  all: intros Heq Hst; try discriminate Heq; injection Heq as <-;
    cbn [status] in Hst; try discriminate Hst.
  exists v0, (prop v1 "data"). cbn [body].
  split; [reflexivity|]. split; [reflexivity|].
  split; [unfold succeeds_with; rewrite Heqo1, Heqb2, Heqb3; reflexivity|].
  split; [reflexivity|].
  split.
  - intros Hrow. cbn. apply (Hrow "password" v0). reflexivity.
  - intros other_body Hother Hemail Hname Hhash. explore. reflexivity.
Qed.

Lemma signup_success_returns_store_record_witness :
  exists digest newUser,
    let row := VObj [("email", VStr "ada@example.org");
                     ("password", digest);
                     ("name", VStr "Ada")] in
    play quiet (BcryptHash (VStr "s3cret") 10) = Resolved digest
    /\ trace (signup (registration "ada@example.org" (VStr "s3cret") "Ada")) (play quiet) =
         [UsersSelectByEmail (VStr "ada@example.org");
          BcryptHash (VStr "s3cret") 10;
          UsersInsert row]
    /\ succeeds_with (play quiet) (UsersInsert row) "data" = Some newUser
    /\ VObj [("message", VStr "Signup successful!"); ("user", ada)]
       = VObj [("message", VStr "Signup successful!"); ("user", newUser)]
    /\ (returns_row newUser row -> prop ada "password" = digest)
    /\ (forall other_body,
          nullish other_body = false ->
          prop other_body "email" = VStr "ada@example.org" ->
          prop other_body "name" = VStr "Ada" ->
          play quiet (BcryptHash (prop other_body "password") 10) = Resolved digest ->
          run (signup other_body) (play quiet) =
            (Sent {| status := 200;
                     body := VObj [("message", VStr "Signup successful!"); ("user", ada)] |},
             [UsersSelectByEmail (VStr "ada@example.org");
              BcryptHash (prop other_body "password") 10;
              UsersInsert row])).
Proof.
  exact (signup_success_returns_store_record
           (registration "ada@example.org" (VStr "s3cret") "Ada")
           (play quiet)
           {| status := 200;
              body := VObj [("message", VStr "Signup successful!"); ("user", ada)] |}
           eq_refl eq_refl).
Defined.

(* ===================================================================== *)
(** ** POST /login *)
(* ===================================================================== *)

(** C1. A login whose lookup finds no user and a login whose lookup finds
    the user but whose password fails verification get the same response,
    status 400 with body [{error: 'Invalid email or password'}]. *)
Theorem login_failures_indistinguishable
    (body1 body2 : JsVal) (env1 env2 : Oracle) (user : JsVal) :
  nullish body1 = false ->
  nullish body2 = false ->
  finds_no_user env1 (prop body1 "email") = true ->
  finds_user env2 (prop body2 "email") = Some user ->
  password_mismatch env2 (prop body2 "password") user = true ->
  result (login body1) env1 =
    Sent {| status := 400; body := VObj [("error", VStr "Invalid email or password")] |}
  /\ result (login body2) env2 = result (login body1) env1.
Proof.
  intros Hb1 Hb2 Hnone Hsome Hbad.
  unfold finds_no_user in Hnone. unfold finds_user in Hsome.
  unfold password_mismatch in Hbad.
  destruct (env1 (UsersSelectByEmail (prop body1 "email"))) as [found1|] eqn:Hsel1;
    [|discriminate].
  destruct (env2 (UsersSelectByEmail (prop body2 "email"))) as [found2|] eqn:Hsel2;
    [|discriminate].
  apply andb_prop in Hnone. destruct Hnone as [Hfound1 Hdata1].
  apply negb_true_iff in Hfound1, Hdata1.
  destruct (truthy (prop found2 "data")) eqn:Hdata2; [|discriminate].
  injection Hsome as <-.
  destruct (env2 (BcryptCompare _ _)) as [verdict|] eqn:Hcmp; [|discriminate].
  apply negb_true_iff in Hbad.
  assert (nullish found2 = false) as Hfound2 by eauto with js.
  unfold result, login. explore. split; reflexivity.
Qed.

Lemma login_failures_indistinguishable_witness :
  result (login (credentials "nobody@example.org" "guess")) (play quiet) =
    Sent {| status := 400; body := VObj [("error", VStr "Invalid email or password")] |}
  /\ result (login (credentials "ada@example.org" "guess"))
            (play (with_compare (Resolved (VBool false))
                     (with_users_select (ok_data ada) quiet)))
     = result (login (credentials "nobody@example.org" "guess")) (play quiet).
Proof.
  apply (login_failures_indistinguishable
           (credentials "nobody@example.org" "guess")
           (credentials "ada@example.org" "guess")
           (play quiet)
           (play (with_compare (Resolved (VBool false))
                    (with_users_select (ok_data ada) quiet)))
           ada);
    reflexivity.
Defined.

(** C8. The response of a successful login carries a [user] object with
    exactly the fields [id], [email] and [name] of the user the lookup
    found; it has no [password] field. *)
Theorem login_success_hides_password
    (req_body : JsVal) (env : Oracle) (resp : Response) :
  result (login req_body) env = Sent resp ->
  status resp = 200 ->
  exists user,
    finds_user env (prop req_body "email") = Some user
    /\ password_match env (prop req_body "password") user = true
    /\ body resp =
         VObj [("success", VBool true);
               ("message", VStr "Login successful!");
               ("user", VObj [("id", prop user "id");
                              ("email", prop user "email");
                              ("name", prop user "name")])]
    /\ exists fields,
         prop (body resp) "user" = VObj fields
         /\ keys fields = ["id"; "email"; "name"]
         /\ lookup "password" fields = None.
Proof.
  unfold result, login. explore.
  all: intros Heq Hst; try discriminate Heq; injection Heq as <-;
    cbn [status] in Hst; try discriminate Hst.
  exists (prop v "data"). unfold finds_user, password_match.
  rewrite Heqo, Heqb2, Heqo0, Heqb3. cbn [body].
  repeat split. eexists. repeat split.
Qed.

Lemma login_success_hides_password_witness :
  exists user,
    finds_user (play (with_users_select (ok_data ada) quiet)) (VStr "ada@example.org")
      = Some user
    /\ password_match (play (with_users_select (ok_data ada) quiet)) (VStr "s3cret") user
       = true
    /\ VObj [("success", VBool true);
             ("message", VStr "Login successful!");
             ("user", VObj [("id", VNum 7);
                            ("email", VStr "ada@example.org");
                            ("name", VStr "Ada")])]
       = VObj [("success", VBool true);
               ("message", VStr "Login successful!");
               ("user", VObj [("id", prop user "id");
                              ("email", prop user "email");
                              ("name", prop user "name")])]
    /\ exists fields,
         VObj [("id", VNum 7); ("email", VStr "ada@example.org"); ("name", VStr "Ada")]
           = VObj fields
         /\ keys fields = ["id"; "email"; "name"]
         /\ lookup "password" fields = None.
Proof.
  exact (login_success_hides_password
           (credentials "ada@example.org" "s3cret")
           (play (with_users_select (ok_data ada) quiet))
           {| status := 200;
              body := VObj [("success", VBool true);
                            ("message", VStr "Login successful!");
                            ("user", VObj [("id", VNum 7);
                                           ("email", VStr "ada@example.org");
                                           ("name", VStr "Ada")])] |}
           eq_refl eq_refl).
Defined.

(* ===================================================================== *)
(** ** POST /transcribe *)
(* ===================================================================== *)

Lemma uuidRegex_class (c : ascii) :
  Regex.class_matches (Regex.cls uuidRegex) c = is_hex_digit c || is_hyphen c.
Proof.
  destruct c as [[] [] [] [] [] [] [] []]; reflexivity.
Qed.

Lemma matches_exactly_spec (cls : list Regex.ClassItem) (ok : ascii -> bool) :
  (forall c, Regex.class_matches cls c = ok c) ->
  forall (n : nat) (s : string),
    Regex.matches_exactly cls n s =
      (String.length s =? n)%nat && forallb ok (list_ascii_of_string s).
Proof.
  intros Hcls n. induction n as [|n IH]; intros [|c s]; simpl; try reflexivity.
  rewrite Hcls, IH.
  destruct (String.length s =? n)%nat; simpl.
  - reflexivity.
  - apply andb_false_r.
Qed.

Lemma uuidRegex_test_string (s : string) :
  Regex.test uuidRegex (VStr s) = Value (well_formed_userId s).
Proof.
  unfold Regex.test, well_formed_userId. cbn [to_string]. f_equal.
  apply (matches_exactly_spec _ _ uuidRegex_class).
Qed.

Lemma well_formed_nonempty (s : string) :
  well_formed_userId s = true -> truthy (VStr s) = true.
Proof. destruct s; [discriminate | reflexivity]. Qed.

(** C4 (as the code has it). With a file present and a userId field that
    is absent or a string, /transcribe answers 400 without calling the
    transcription provider exactly when the userId is missing or is not 36
    characters, each a hex digit or a hyphen; "abc" fails the check and
    "123e4567-e89b-12d3-a456-426614174000" passes it. *)
Theorem transcribe_userId_gate
    (file : File) (req_body : JsVal) (env : Oracle) (userId : option string) :
  nullish req_body = false ->
  prop req_body "userId" = field_value userId ->
  ((status_of (result (transcribe (Some file) req_body) env) = Some 400
    /\ existsb is_transcription_call (trace (transcribe (Some file) req_body) env) = false)
   <-> userId_acceptable userId = false)
  /\ (status_of (result (transcribe (Some file) req_body) env) = Some 400
      <-> userId_acceptable userId = false)
  /\ Regex.test uuidRegex (VStr "abc") = Value false
  /\ Regex.test uuidRegex (VStr "123e4567-e89b-12d3-a456-426614174000") = Value true.
Proof.
  intros Hbody Hfield.
  assert (userId_acceptable userId = false ->
          status_of (result (transcribe (Some file) req_body) env) = Some 400
          /\ trace (transcribe (Some file) req_body) env = []) as Hreject.
  { intros Hbad. unfold result, trace, transcribe. reads. rewrite Hfield.
    destruct userId as [s|]; cbn [field_value].
    - destruct (truthy (VStr s)) eqn:Hs; steps; [|split; reflexivity].
      rewrite uuidRegex_test_string. cbn [userId_acceptable] in Hbad.
      rewrite Hbad. steps. split; reflexivity.
    - cbn [truthy]. steps. split; reflexivity. }
  assert (userId_acceptable userId = true ->
          status_of (result (transcribe (Some file) req_body) env) <> Some 400
          /\ existsb is_transcription_call
               (trace (transcribe (Some file) req_body) env) = true) as Haccept.
  { intros Hgood. destruct userId as [s|]; [|discriminate].
    cbn [userId_acceptable] in Hgood.
    unfold result, trace, transcribe. reads. rewrite Hfield. cbn [field_value].
    rewrite (well_formed_nonempty s Hgood), uuidRegex_test_string, Hgood.
    unfold transcript_chain; explore.
    all: split; [simpl; discriminate | reflexivity]. }
  split; [split | split; [split | split; reflexivity]].
  - intros [Hst _]. destruct (userId_acceptable userId) eqn:E; [|reflexivity].
    destruct (Haccept eq_refl) as [Hne _]. contradiction.
  - intros Hbad. destruct (Hreject Hbad) as [Hst Htr].
    split; [exact Hst | rewrite Htr; reflexivity].
  - intros Hst. destruct (userId_acceptable userId) eqn:E; [|reflexivity].
    destruct (Haccept eq_refl) as [Hne _]. contradiction.
  - intros Hbad. apply (Hreject Hbad).
Qed.

Lemma transcribe_userId_gate_witness :
  status_of (result (transcribe (Some hello_wav) (with_userId "abc")) (play quiet)) = Some 400
  /\ status_of (result (transcribe (Some hello_wav) (with_userId a_uuid)) (play quiet))
       <> Some 400.
Proof.
  split.
  - apply (transcribe_userId_gate hello_wav (with_userId "abc") (play quiet) (Some "abc")
             eq_refl eq_refl).
    reflexivity.
  - intros Hst.
    apply (transcribe_userId_gate hello_wav (with_userId a_uuid) (play quiet) (Some a_uuid)
             eq_refl eq_refl) in Hst.
    discriminate Hst.
Defined.

(** The claim C4 as written fails for a userId that is not a string: the
    check is made on its string form, so an array holding one well-formed
    identifier, which is not itself 36 characters, is let through to the
    provider and the request is answered 200. *)
Lemma userId_gate_lets_an_array_through :
  is_well_formed_string (VArr [VStr a_uuid]) = false
  /\ status_of (result (transcribe (Some hello_wav) (VObj [("userId", VArr [VStr a_uuid])]))
                       (play quiet))
     = Some 200
  /\ existsb is_transcription_call
       (trace (transcribe (Some hello_wav) (VObj [("userId", VArr [VStr a_uuid])]))
              (play quiet))
     = true.
Proof. repeat split. Qed.

Lemma transcribe_calls_provider (file : File) (req_body : JsVal) (env : Oracle) :
  nullish req_body = false ->
  truthy (prop req_body "userId") = true ->
  Regex.test uuidRegex (prop req_body "userId") = Value true ->
  exists more,
    trace (transcribe (Some file) req_body) env =
      DeepgramTranscribeFile (buffer file)
        (VObj [("model", VStr "nova-3");
               ("smart_format", VBool true);
               ("mimetype", VStr (mimetype file))]) :: more.
Proof.
  intros Hbody Hpresent Hformat.
  unfold trace, transcribe. reads. rewrite Hpresent, Hformat. steps.
  destruct (run _ env) as [r t]. exists t. reflexivity.
Qed.

(** C9. The userId check of /transcribe looks at length and characters
    only: a string of 36 hyphens and a string of 36 hex digits, neither of
    them a UUID, both pass it, and the request goes on to the transcription
    provider. *)
Theorem userId_check_admits_non_uuids (file : File) (env : Oracle) :
  is_uuid hyphens36 = false
  /\ is_uuid hex36 = false
  /\ Regex.test uuidRegex (VStr hyphens36) = Value true
  /\ Regex.test uuidRegex (VStr hex36) = Value true
  /\ (exists more,
        trace (transcribe (Some file) (with_userId hyphens36)) env =
          DeepgramTranscribeFile (buffer file)
            (VObj [("model", VStr "nova-3");
                   ("smart_format", VBool true);
                   ("mimetype", VStr (mimetype file))]) :: more)
  /\ (exists more,
        trace (transcribe (Some file) (with_userId hex36)) env =
          DeepgramTranscribeFile (buffer file)
            (VObj [("model", VStr "nova-3");
                   ("smart_format", VBool true);
                   ("mimetype", VStr (mimetype file))]) :: more).
Proof.
  repeat split; try reflexivity;
    apply transcribe_calls_provider; reflexivity.
Qed.

Lemma transcript_chain_no_transcript (result : JsVal) :
  no_transcript result = true ->
  exists found, transcript_chain result = Ret found /\ truthy found = false.
Proof.
  unfold no_transcript, transcript_chain, opt_chain, field, index, get_index.
  intros H.
  destruct (nullish result) eqn:Hresult; [eexists; split; reflexivity|].
  rewrite (get_field_prop result) by exact Hresult. steps.
  destruct (nullish (prop result "results")) eqn:Hresults; [eexists; split; reflexivity|].
  rewrite (get_field_prop (prop result "results")) by exact Hresults. steps.
  cbn [orb] in H.
  destruct (prop (prop result "results") "channels") as [| | | | |channels|];
    try discriminate H.
  destruct channels as [|channel0 channels].
  { cbn. eexists; split; reflexivity. }
  cbn [get_field]. change (prop (VArr (channel0 :: channels)) _) with channel0. steps.
  destruct (nullish channel0) eqn:Hchannel0; [eexists; split; reflexivity|].
  rewrite (get_field_prop channel0) by exact Hchannel0. steps.
  cbn [orb] in H.
  destruct (prop channel0 "alternatives") as [| | | | |alternatives|];
    try discriminate H.
  destruct alternatives as [|alternative0 alternatives].
  { cbn. eexists; split; reflexivity. }
  cbn [get_field]. change (prop (VArr (alternative0 :: alternatives)) _) with alternative0.
  steps.
  destruct (nullish alternative0) eqn:Halternative0; [eexists; split; reflexivity|].
  rewrite (get_field_prop alternative0) by exact Halternative0. steps.
  cbn [orb] in H. apply negb_true_iff in H.
  eexists; split; [reflexivity | exact H].
Qed.

(** Outside that shape the chain can throw: [results] without [channels]
    makes [channels[0]] a read on [undefined], and the catch block answers
    500. *)
Example transcribe_results_without_channels :
  transcript_chain (VObj [("results", VObj [])])
    = Throw (TypeError_read false "0")
  /\ status_of (result (transcribe (Some hello_wav) (with_userId a_uuid))
                       (play (with_transcribe (ok_result (VObj [("results", VObj [])]))
                                quiet)))
     = Some 500.
Proof. split; reflexivity. Qed.

Lemma js_or_falsy (a b : JsVal) : truthy a = false -> js_or a b = b.
Proof. intros H. unfold js_or. rewrite H. reflexivity. Qed.

Lemma file_url_value (name : string) :
  js_or (VStr name) (VStr "unknown_filename") =
    VStr (if String.eqb name EmptyString then "unknown_filename" else name).
Proof. unfold js_or. cbn [truthy]. destruct (String.eqb name EmptyString); reflexivity. Qed.

(** C3 (as the code has it). When the transcription provider answers
    without an error and without a transcript, /transcribe takes "No
    transcript available" as the transcript and gives it to the store's
    insert; when that insert reports no error the response is 200 with this
    transcript. *)
Theorem transcribe_without_transcript
    (file : File) (req_body : JsVal) (env : Oracle) (result : JsVal) :
  nullish req_body = false ->
  truthy (prop req_body "userId") = true ->
  Regex.test uuidRegex (prop req_body "userId") = Value true ->
  succeeds_with env
    (DeepgramTranscribeFile (buffer file)
       (VObj [("model", VStr "nova-3");
              ("smart_format", VBool true);
              ("mimetype", VStr (mimetype file))])) "result" = Some result ->
  no_transcript result = true ->
  let row := VObj [("user_id", prop req_body "userId");
                   ("transcript", VStr "No transcript available");
                   ("file_url", js_or (VStr (originalname file))
                                      (VStr "unknown_filename"))] in
  trace (transcribe (Some file) req_body) env =
    [DeepgramTranscribeFile (buffer file)
       (VObj [("model", VStr "nova-3");
              ("smart_format", VBool true);
              ("mimetype", VStr (mimetype file))]);
     TranscriptionsInsert row]
  /\ forall savedTranscription,
       succeeds_with env (TranscriptionsInsert row) "data" = Some savedTranscription ->
       Async.result (transcribe (Some file) req_body) env =
         Sent {| status := 200;
                 body := VObj [("message", VStr "Transcription successful!");
                               ("transcript", VStr "No transcript available");
                               ("savedTranscription", savedTranscription)] |}.
Proof.
  intros Hbody Hpresent Hformat Hanswer Hnone row.
  unfold succeeds_with in Hanswer.
  destruct (env (DeepgramTranscribeFile _ _)) as [answer|] eqn:Hcall; [|discriminate].
  destruct (nullish answer) eqn:Hnn; [discriminate|].
  destruct (truthy (prop answer "error")) eqn:Herr; [discriminate|].
  injection Hanswer as <-.
  destruct (transcript_chain_no_transcript _ Hnone) as [found [Hchain Hfalsy]].
  unfold Async.result, trace, transcribe. reads.
  rewrite Hpresent, Hformat. steps. rewrite Hcall. reads. rewrite Herr.
  rewrite Hchain. steps. rewrite (js_or_falsy _ _ Hfalsy). fold row.
  split.
  - explore; reflexivity.
  - intros saved Hsaved. unfold succeeds_with in Hsaved.
    destruct (env (TranscriptionsInsert row)) as [stored|]; [|discriminate].
    destruct (nullish stored) eqn:Hstored; [discriminate|].
    destruct (truthy (prop stored "error")) eqn:Hsave; [discriminate|].
    injection Hsaved as <-. reads. rewrite Hsave. reflexivity.
Qed.


Lemma transcribe_without_transcript_witness :
  trace (transcribe (Some hello_wav) (with_userId a_uuid))
        (play (with_transcribe (ok_result (result_with (VStr EmptyString))) quiet)) =
    [DeepgramTranscribeFile (buffer hello_wav)
       (VObj [("model", VStr "nova-3");
              ("smart_format", VBool true);
              ("mimetype", VStr "audio/wav")]);
     TranscriptionsInsert
       (VObj [("user_id", VStr a_uuid);
              ("transcript", VStr "No transcript available");
              ("file_url", VStr "hello.wav")])]
  /\ Async.result (transcribe (Some hello_wav) (with_userId a_uuid))
                  (play (with_transcribe (ok_result (result_with (VStr EmptyString))) quiet)) =
       Sent {| status := 200;
               body := VObj [("message", VStr "Transcription successful!");
                             ("transcript", VStr "No transcript available");
                             ("savedTranscription", VNull)] |}.
Proof.
  destruct (transcribe_without_transcript
              hello_wav (with_userId a_uuid)
              (play (with_transcribe (ok_result (result_with (VStr EmptyString))) quiet))
              (result_with (VStr EmptyString))
              eq_refl eq_refl eq_refl eq_refl eq_refl) as [Htrace Hsent].
  split.
  - exact Htrace.
  - exact (Hsent VNull eq_refl).
Defined.

(** The claim C3 as written fails when the store's insert fails: the
    provider answered without error and with an empty transcript, yet the
    response is 500, not 200. *)
Lemma transcribe_without_transcript_can_fail :
  succeeds_with
    (play (with_transcriptions_insert (failed "violates foreign key constraint")
             (with_transcribe (ok_result (result_with (VStr EmptyString))) quiet)))
    (DeepgramTranscribeFile (buffer hello_wav)
       (VObj [("model", VStr "nova-3");
              ("smart_format", VBool true);
              ("mimetype", VStr (mimetype hello_wav))])) "result"
    = Some (result_with (VStr EmptyString))
  /\ no_transcript (result_with (VStr EmptyString)) = true
  /\ Async.result (transcribe (Some hello_wav) (with_userId a_uuid))
       (play (with_transcriptions_insert (failed "violates foreign key constraint")
                (with_transcribe (ok_result (result_with (VStr EmptyString))) quiet)))
     = Sent {| status := 500;
               body := VObj [("error", VStr "Error transcribing audio");
                             ("details", VStr "Failed to save transcription.")] |}
  /\ status_of
       (Async.result (transcribe (Some hello_wav) (with_userId a_uuid))
          (play (with_transcriptions_insert (failed "violates foreign key constraint")
                   (with_transcribe (ok_result (result_with (VStr EmptyString))) quiet))))
     <> Some 200.
Proof.
  repeat split. discriminate.
Qed.

(** C5. The record a successful /transcribe inserts has, as [file_url], the
    uploaded file's original name, not the URL of a stored blob: the handler
    makes no call to the blob storage.  (An attached file has a name, so the
    handler's fallback "unknown_filename" is not taken.) *)
Theorem transcribe_file_url_is_filename
    (file : File) (req_body : JsVal) (env : Oracle) (resp : Response) :
  has_name file = true ->
  Async.result (transcribe (Some file) req_body) env = Sent resp ->
  status resp = 200 ->
  (exists transcript,
     trace (transcribe (Some file) req_body) env =
       [DeepgramTranscribeFile (buffer file)
          (VObj [("model", VStr "nova-3");
                 ("smart_format", VBool true);
                 ("mimetype", VStr (mimetype file))]);
        TranscriptionsInsert
          (VObj [("user_id", prop req_body "userId");
                 ("transcript", transcript);
                 ("file_url", VStr (originalname file))])])
  /\ existsb is_storage_call (trace (transcribe (Some file) req_body) env) = false.
Proof.
  intros Hname. unfold has_name in Hname. apply negb_true_iff in Hname.
  unfold Async.result, trace, transcribe, transcript_chain. explore.
  all: intros Heq Hst; try discriminate Heq; injection Heq as <-;
    cbn [status] in Hst; try discriminate Hst.
  all: rewrite file_url_value, Hname; split; [eexists; reflexivity | reflexivity].
Qed.

Lemma transcribe_file_url_is_filename_witness :
  (exists transcript,
     trace (transcribe (Some hello_wav) (with_userId a_uuid)) (play quiet) =
       [DeepgramTranscribeFile (buffer hello_wav)
          (VObj [("model", VStr "nova-3");
                 ("smart_format", VBool true);
                 ("mimetype", VStr "audio/wav")]);
        TranscriptionsInsert
          (VObj [("user_id", VStr a_uuid);
                 ("transcript", transcript);
                 ("file_url", VStr "hello.wav")])])
  /\ existsb is_storage_call
       (trace (transcribe (Some hello_wav) (with_userId a_uuid)) (play quiet)) = false.
Proof.
  exact (transcribe_file_url_is_filename
           hello_wav (with_userId a_uuid) (play quiet)
           {| status := 200;
              body := VObj [("message", VStr "Transcription successful!");
                            ("transcript", VStr "hello world");
                            ("savedTranscription", VNull)] |}
           eq_refl eq_refl eq_refl).
Defined.

(* ===================================================================== *)
(** ** Failures of the outside services, on every route *)
(* ===================================================================== *)

Ltac close_rejection :=
  intros Hin Hrej Hnn; cbn [In] in Hin;
  repeat (destruct Hin as [<-|Hin]; [try congruence|]);
  try contradiction.

Lemma rejection_surfaces (env : Oracle) (req : Request) (c : Call) (e : JsVal) :
  In c (trace (handle req) env) ->
  env c = Rejected e ->
  nullish e = false ->
  result (handle req) env = Sent (error_500 (catch_label req) (prop e "message")).
Proof.
  unfold result, trace, error_500.
  destruct req as [req_body|req_body|bucket now [file|]|[file|] req_body|userId|];
    cbn [handle catch_label].
  - unfold signup. explore; close_rejection.
  - unfold login. explore; close_rejection.
  - unfold upload. explore; close_rejection.
  - unfold upload. explore; close_rejection.
  - unfold transcribe, transcript_chain. explore; close_rejection.
  - unfold transcribe. explore; close_rejection.
  - unfold transcriptions. explore; close_rejection.
  - unfold root. explore; close_rejection.
Qed.

Ltac close_nodup :=
  repeat (constructor; [cbn [In]; intuition discriminate|]); constructor.

(** No handler makes the same call twice: nothing is retried. *)
Lemma no_call_repeated (env : Oracle) (req : Request) :
  NoDup (trace (handle req) env).
Proof.
  unfold trace.
  destruct req as [req_body|req_body|bucket now [file|]|[file|] req_body|userId|];
    cbn [handle].
  - unfold signup. explore; close_nodup.
  - unfold login. explore; close_nodup.
  - unfold upload. explore; close_nodup.
  - unfold upload. explore; close_nodup.
  - unfold transcribe, transcript_chain. explore; close_nodup.
  - unfold transcribe. explore; close_nodup.
  - unfold transcriptions. explore; close_nodup.
  - unfold root. explore; close_nodup.
Qed.

Lemma run_result_trace {A : Type} (p : Prog A) (env : Oracle) :
  run p env = (result p env, trace p env).
Proof. unfold result, trace. destruct (run p env); reflexivity. Qed.

Ltac use_report H :=
  unfold reports_error in H;
  match type of H with
  | match ?env ?c with _ => _ end = _ =>
      let answer := fresh "answer" in
      let Hcall := fresh "Hcall" in
      let Herr := fresh "Herr" in
      destruct (env c) as [answer|] eqn:Hcall; [|discriminate H];
      destruct (truthy (prop answer "error")) eqn:Herr; [|discriminate H];
      injection H as <-;
      pose proof (prop_truthy_not_nullish _ _ Herr)
  end.

(** C2 (as the code has it). On every route a call that rejects or throws
    is answered 500 with the thrown error's message; a storage upload, a
    transcription listing or a user insert that reports an error is
    answered 500 with that error's message; the transcription provider or
    the transcription insert reporting an error is answered 500 with the
    handler's own text ("Failed to transcribe audio.", "Failed to save
    transcription."), not the provider's message.  In each case the calls
    made are the ones listed, none of them twice. *)
Theorem failures_surface_as_500
    (env : Oracle) (req : Request) (calls : list Call) (resp : Response) :
  surfaces env req calls resp ->
  run (handle req) env = (Sent resp, calls)
  /\ status resp = 500
  /\ NoDup calls.
Proof.
  intros Hfail.
  assert (run (handle req) env = (Sent resp, calls)) as Hrun.
  { destruct Hfail as [req c e Hin Hrej Hnn
                      |bucket now file e Hrep
                      |userId e Hid Hrep
                      |req_body hashedPassword e Hbody Hnone Hhash Hrep
                      |file req_body e Hbody Hpresent Hformat Hrep
                      |file req_body result found e Hbody Hpresent Hformat Hok Hchain Hrep].
    - rewrite run_result_trace. rewrite (rejection_surfaces env req c e Hin Hrej Hnn).
      reflexivity.
    - use_report Hrep. unfold upload_call in Hcall.
      cbn [handle]. unfold upload, error_500. explore. reflexivity.
    - use_report Hrep.
      cbn [handle]. unfold transcriptions, error_500. explore. reflexivity.
    - use_report Hrep. unfold user_row in Hcall.
      unfold finds_no_user in Hnone.
      destruct (env (UsersSelectByEmail _)) as [found|] eqn:Hsel; [|discriminate].
      apply andb_prop in Hnone. destruct Hnone as [Hfound Hdata].
      apply negb_true_iff in Hfound, Hdata.
      cbn [handle]. unfold signup, error_500, user_row. explore. reflexivity.
    - use_report Hrep. unfold transcribe_call in Hcall.
      cbn [handle]. unfold transcribe, error_500, transcribe_call. explore. reflexivity.
    - use_report Hrep. unfold transcription_row in Hcall.
      unfold succeeds_with in Hok.
      destruct (env (transcribe_call file)) as [heard|] eqn:Hheard; [|discriminate].
      destruct (nullish heard) eqn:Hnn; [discriminate|].
      destruct (truthy (prop heard "error")) eqn:Hherr; [discriminate|].
      injection Hok as <-. unfold transcribe_call in Hheard.
      cbn [handle]. unfold transcribe, error_500, transcribe_call, transcription_row.
      reads. rewrite Hpresent, Hformat. steps. rewrite Hheard. reads. rewrite Hherr.
      rewrite Hchain. steps. rewrite Hcall. explore. reflexivity. }
  split; [exact Hrun|]. split.
  - destruct Hfail; reflexivity.
  - assert (calls = trace (handle req) env) as ->
      by (unfold trace; rewrite Hrun; reflexivity).
    apply no_call_repeated.
Qed.

Lemma failures_surface_as_500_witness :
  run (handle (PostUpload (VStr "recordings") 1700000000000 (Some hello_wav)))
      (play (with_storage_upload (failed "Bucket not found") quiet))
    = (Sent (error_500 "Failed to upload to Supabase" (VStr "Bucket not found")),
       [upload_call (VStr "recordings") 1700000000000 hello_wav])
  /\ status (error_500 "Failed to upload to Supabase" (VStr "Bucket not found")) = 500
  /\ NoDup [upload_call (VStr "recordings") 1700000000000 hello_wav].
Proof.
  apply (failures_surface_as_500
           (play (with_storage_upload (failed "Bucket not found") quiet))
           (PostUpload (VStr "recordings") 1700000000000 (Some hello_wav))
           [upload_call (VStr "recordings") 1700000000000 hello_wav]
           (error_500 "Failed to upload to Supabase" (VStr "Bucket not found"))).
  apply (upload_reports
           (play (with_storage_upload (failed "Bucket not found") quiet))
           (VStr "recordings") 1700000000000 hello_wav
           (VObj [("message", VStr "Bucket not found")])).
  reflexivity.
Defined.

(** The claim C2 as written fails on /transcribe: the provider reports an
    error whose message is "Invalid credentials."; the response is 500 and
    its [details] is the handler's own text, not that message. *)
Lemma provider_message_is_not_passed_through :
  reports_error (play (with_transcribe (failed_result "Invalid credentials.") quiet))
                (transcribe_call hello_wav)
    = Some (VObj [("message", VStr "Invalid credentials.")])
  /\ result (handle (PostTranscribe (Some hello_wav) (with_userId a_uuid)))
            (play (with_transcribe (failed_result "Invalid credentials.") quiet))
     = Sent {| status := 500;
               body := VObj [("error", VStr "Error transcribing audio");
                             ("details", VStr "Failed to transcribe audio.")] |}
  /\ prop (VObj [("error", VStr "Error transcribing audio");
                 ("details", VStr "Failed to transcribe audio.")]) "details"
     <> prop (VObj [("message", VStr "Invalid credentials.")]) "message".
Proof.
  repeat split. discriminate.
Qed.

(* ===================================================================== *)
(** ** Every route: statuses, answers, calls *)
(* ===================================================================== *)

Ltac each_route req :=
  destruct req as [req_body|req_body|bucket now [file|]|[file|] req_body|userId|];
  cbn [handle];
  unfold signup, login, upload, transcribe, transcript_chain, transcriptions, root.

(** X1. Whatever the outside services answer, a response that is sent has
    status 200, 400 or 500. *)
Theorem every_status_is_known (req : Request) (env : Oracle) (resp : Response) :
  result (handle req) env = Sent resp ->
  known_status (status resp) = true.
Proof.
  unfold result. each_route req; explore;
    intros Heq; try discriminate Heq; injection Heq as <-; reflexivity.
Qed.

Lemma every_status_is_known_witness :
  known_status
    (status {| status := 400; body := VObj [("error", VStr "User ID is required")] |}) = true.
Proof.
  exact (every_status_is_known
           (PostTranscribe (Some hello_wav) (VObj [])) (play quiet)
           {| status := 400; body := VObj [("error", VStr "User ID is required")] |}
           eq_refl).
Defined.

(** X2. A request is left without a response only when one of the calls the
    handler made rejected (or threw) with [undefined] or [null]: the catch
    block's [error.message] then throws in turn. *)
Theorem unanswered_only_on_nullish_rejection
    (req : Request) (env : Oracle) (thrown : JsVal) :
  result (handle req) env = Unhandled thrown ->
  exists c r,
    In c (trace (handle req) env)
    /\ env c = Rejected r
    /\ nullish r = true
    /\ thrown = TypeError_read (is_null r) "message".
Proof.
  unfold result, trace. each_route req; explore;
    intros Heq; try discriminate Heq; injection Heq as <-;
    match goal with
    | H : env ?c = Rejected ?r, Hn : nullish ?r = true |- _ =>
        exists c, r; split; [cbn [In]; tauto | repeat split; assumption]
    end.
Qed.

Lemma unanswered_only_on_nullish_rejection_witness :
  exists c r,
    In c (trace (handle (PostLogin (credentials "ada@example.org" "s3cret")))
                (play (with_users_select (Rejected VUndef) quiet)))
    /\ play (with_users_select (Rejected VUndef) quiet) c = Rejected r
    /\ nullish r = true
    /\ TypeError_read false "message" = TypeError_read (is_null r) "message".
Proof.
  exact (unanswered_only_on_nullish_rejection
           (PostLogin (credentials "ada@example.org" "s3cret"))
           (play (with_users_select (Rejected VUndef) quiet))
           (TypeError_read false "message")
           eq_refl).
Defined.

(** X3. A handler calls only the services of its own route: /signup and
    /login the users table and bcrypt, /upload the storage bucket,
    /transcribe the transcription provider and the transcriptions table
    (never the storage bucket), the listing the transcriptions table, and
    the liveness route nothing. *)
Theorem calls_stay_within_route (req : Request) (env : Oracle) :
  forallb (route_may_call req) (trace (handle req) env) = true.
Proof.
  unfold trace. each_route req; explore; reflexivity.
Qed.

(** X4. A 400 response is sent before anything is written or bought: the
    calls made before it, if any, are the user lookup and the password
    comparison. *)
Theorem status_400_after_checks_only (req : Request) (env : Oracle) (resp : Response) :
  result (handle req) env = Sent resp ->
  status resp = 400 ->
  forallb is_credential_check (trace (handle req) env) = true.
Proof.
  unfold result, trace. each_route req; explore;
    intros Heq Hst; try discriminate Heq; injection Heq as <-;
    cbn [status] in Hst; try discriminate Hst; reflexivity.
Qed.

Lemma status_400_after_checks_only_witness :
  forallb is_credential_check
    (trace (handle (PostLogin (credentials "ada@example.org" "guess")))
           (play (with_compare (Resolved (VBool false))
                    (with_users_select (ok_data ada) quiet)))) = true.
Proof.
  exact (status_400_after_checks_only
           (PostLogin (credentials "ada@example.org" "guess"))
           (play (with_compare (Resolved (VBool false))
                    (with_users_select (ok_data ada) quiet)))
           {| status := 400; body := VObj [("error", VStr "Invalid email or password")] |}
           eq_refl eq_refl).
Defined.

(* ===================================================================== *)
(** ** More on /signup and /login *)
(* ===================================================================== *)

(** X5. Whatever /signup gives to the users table, on any path, is a row
    whose password is the digest [bcrypt.hash] resolved to for the request's
    password, and it is given only after the lookup found no user. *)
Theorem signup_inserts_only_digests
    (req_body : JsVal) (env : Oracle) (row : JsVal) :
  In (UsersInsert row) (trace (signup req_body) env) ->
  finds_no_user env (prop req_body "email") = true
  /\ exists digest,
       env (BcryptHash (prop req_body "password") 10) = Resolved digest
       /\ row = user_row req_body digest.
Proof.
  unfold trace, signup. explore;
    intros Hin; cbn [In] in Hin;
    repeat (destruct Hin as [Heq|Hin]; [try discriminate Heq|]);
    try contradiction;
    injection Heq as <-;
    (split;
     [unfold finds_no_user;
      repeat match goal with H : env _ = _ |- _ => rewrite H; clear H end;
      repeat match goal with H : nullish _ = _ |- _ => rewrite H; clear H end;
      repeat match goal with H : truthy _ = _ |- _ => rewrite H; clear H end;
      reflexivity
     | eexists; split; [first [eassumption | reflexivity] | reflexivity]]).
Qed.

Lemma signup_inserts_only_digests_witness :
  finds_no_user (play quiet) (VStr "ada@example.org") = true
  /\ exists d,
       play quiet (BcryptHash (VStr "s3cret") 10) = Resolved d
       /\ VObj [("email", VStr "ada@example.org"); ("password", digest); ("name", VStr "Ada")]
          = user_row (registration "ada@example.org" (VStr "s3cret") "Ada") d.
Proof.
  apply (signup_inserts_only_digests
           (registration "ada@example.org" (VStr "s3cret") "Ada") (play quiet)
           (VObj [("email", VStr "ada@example.org"); ("password", digest);
                  ("name", VStr "Ada")])).
  cbn. tauto.
Defined.

(** X6. A signup for an email the lookup does not find, whose password is
    hashed and whose row the store accepts, is answered 200 with the store's
    record as [user], after exactly three calls: lookup, hash, insert. *)
Theorem signup_registers_new_user
    (req_body : JsVal) (env : Oracle) (digest newUser : JsVal) :
  nullish req_body = false ->
  finds_no_user env (prop req_body "email") = true ->
  env (BcryptHash (prop req_body "password") 10) = Resolved digest ->
  succeeds_with env (UsersInsert (user_row req_body digest)) "data" = Some newUser ->
  run (signup req_body) env =
    (Sent {| status := 200;
             body := VObj [("message", VStr "Signup successful!"); ("user", newUser)] |},
     [UsersSelectByEmail (prop req_body "email");
      BcryptHash (prop req_body "password") 10;
      UsersInsert (user_row req_body digest)]).
Proof.
  intros Hbody Hnone Hhash Hins.
  unfold finds_no_user in Hnone.
  destruct (env (UsersSelectByEmail _)) as [found|] eqn:Hsel; [|discriminate].
  apply andb_prop in Hnone. destruct Hnone as [Hfound Hdata].
  apply negb_true_iff in Hfound, Hdata.
  unfold succeeds_with, user_row in Hins.
  destruct (env (UsersInsert _)) as [inserted|] eqn:Hcall; [|discriminate].
  destruct (nullish inserted) eqn:Hnn; [discriminate|].
  destruct (truthy (prop inserted "error")) eqn:Herr; [discriminate|].
  injection Hins as <-.
  unfold signup, user_row. explore. reflexivity.
Qed.

Lemma signup_registers_new_user_witness :
  run (signup (registration "ada@example.org" (VStr "s3cret") "Ada")) (play quiet) =
    (Sent {| status := 200;
             body := VObj [("message", VStr "Signup successful!"); ("user", ada)] |},
     [UsersSelectByEmail (VStr "ada@example.org");
      BcryptHash (VStr "s3cret") 10;
      UsersInsert (user_row (registration "ada@example.org" (VStr "s3cret") "Ada") digest)]).
Proof.
  exact (signup_registers_new_user
           (registration "ada@example.org" (VStr "s3cret") "Ada") (play quiet) digest ada
           eq_refl eq_refl eq_refl eq_refl).
Defined.

(** X7. A login whose lookup finds a user and whose password
    [bcrypt.compare] accepts against that user's stored [password] is
    answered 200 with the user's [id], [email] and [name], after exactly two
    calls: lookup, compare. *)
Theorem login_accepts_matching_password
    (req_body : JsVal) (env : Oracle) (user : JsVal) :
  nullish req_body = false ->
  finds_user env (prop req_body "email") = Some user ->
  password_match env (prop req_body "password") user = true ->
  run (login req_body) env =
    (Sent {| status := 200;
             body := VObj [("success", VBool true);
                           ("message", VStr "Login successful!");
                           ("user", VObj [("id", prop user "id");
                                          ("email", prop user "email");
                                          ("name", prop user "name")])] |},
     [UsersSelectByEmail (prop req_body "email");
      BcryptCompare (prop req_body "password") (prop user "password")]).
Proof.
  intros Hbody Hsome Hok.
  unfold finds_user in Hsome.
  destruct (env (UsersSelectByEmail _)) as [found|] eqn:Hsel; [|discriminate].
  destruct (truthy (prop found "data")) eqn:Hdata; [|discriminate].
  injection Hsome as <-.
  unfold password_match in Hok.
  destruct (env (BcryptCompare _ _)) as [verdict|] eqn:Hcmp; [|discriminate].
  assert (nullish found = false) as Hfound by eauto with js.
  unfold login. explore. reflexivity.
Qed.

Lemma login_accepts_matching_password_witness :
  run (login (credentials "ada@example.org" "s3cret"))
      (play (with_users_select (ok_data ada) quiet)) =
    (Sent {| status := 200;
             body := VObj [("success", VBool true);
                           ("message", VStr "Login successful!");
                           ("user", VObj [("id", VNum 7);
                                          ("email", VStr "ada@example.org");
                                          ("name", VStr "Ada")])] |},
     [UsersSelectByEmail (VStr "ada@example.org");
      BcryptCompare (VStr "s3cret") digest]).
Proof.
  exact (login_accepts_matching_password
           (credentials "ada@example.org" "s3cret")
           (play (with_users_select (ok_data ada) quiet)) ada
           eq_refl eq_refl eq_refl).
Defined.

(** X8. Neither /signup nor /login looks at the [error] of the user lookup:
    in two worlds that differ only in what the lookup answers, and whose
    answers carry the same [data], the response and the calls are the
    same. *)
Theorem lookup_error_is_ignored
    (req_body : JsVal) (env : Oracle) (found1 found2 : JsVal) :
  nullish found1 = false ->
  nullish found2 = false ->
  prop found1 "data" = prop found2 "data" ->
  run (signup req_body) (lookup_answers found1 env)
    = run (signup req_body) (lookup_answers found2 env)
  /\ run (login req_body) (lookup_answers found1 env)
     = run (login req_body) (lookup_answers found2 env).
Proof.
  intros Hnn1 Hnn2 Hdata. unfold lookup_answers.
  split.
  - unfold signup. explore; reflexivity.
  - unfold login. explore; reflexivity.
Qed.

Lemma lookup_error_is_ignored_witness :
  run (signup (registration "bob@example.org" (VStr "pw") "Bob"))
      (lookup_answers (VObj [("data", VNull); ("error", VNull)]) (play quiet))
    = run (signup (registration "bob@example.org" (VStr "pw") "Bob"))
          (lookup_answers
             (VObj [("data", VNull);
                    ("error", VObj [("message", VStr "connection refused")])])
             (play quiet))
  /\ run (login (registration "bob@example.org" (VStr "pw") "Bob"))
         (lookup_answers (VObj [("data", VNull); ("error", VNull)]) (play quiet))
     = run (login (registration "bob@example.org" (VStr "pw") "Bob"))
           (lookup_answers
              (VObj [("data", VNull);
                     ("error", VObj [("message", VStr "connection refused")])])
              (play quiet)).
Proof.
  exact (lookup_error_is_ignored
           (registration "bob@example.org" (VStr "pw") "Bob") (play quiet)
           (VObj [("data", VNull); ("error", VNull)])
           (VObj [("data", VNull);
                  ("error", VObj [("message", VStr "connection refused")])])
           eq_refl eq_refl eq_refl).
Defined.

(* ===================================================================== *)
(** ** POST /upload *)
(* ===================================================================== *)

(** X9. When the storage upload reports no error and hands back its data,
    /upload asks for the public URL of the path in that data and answers 200
    with the [publicUrl] of what it gets as [fileURL]; the blob is stored
    under [upload_key], with the file's bytes and content type. *)
Theorem upload_returns_public_url
    (bucket : JsVal) (now : Z) (file : File) (env : Oracle) (data location : JsVal) :
  succeeds_with env
    (StorageUpload bucket (upload_key now (originalname file)) (buffer file)
       (VObj [("contentType", VStr (mimetype file))])) "data" = Some data ->
  nullish data = false ->
  env (StorageGetPublicUrl bucket (prop data "path")) = Resolved location ->
  nullish location = false ->
  run (upload bucket now (Some file)) env =
    (Sent {| status := 200;
             body := VObj [("message", VStr "Audio uploaded successfully!");
                           ("fileURL", prop location "publicUrl")] |},
     [StorageUpload bucket (upload_key now (originalname file)) (buffer file)
        (VObj [("contentType", VStr (mimetype file))]);
      StorageGetPublicUrl bucket (prop data "path")]).
Proof.
  intros Hup Hdata Hloc Hnn.
  unfold succeeds_with, upload_key in Hup.
  destruct (env (StorageUpload _ _ _ _)) as [uploaded|] eqn:Hcall; [|discriminate].
  destruct (nullish uploaded) eqn:Huploaded; [discriminate|].
  destruct (truthy (prop uploaded "error")) eqn:Herr; [discriminate|].
  injection Hup as <-.
  unfold upload, upload_key. explore. reflexivity.
Qed.

Lemma upload_returns_public_url_witness :
  run (upload (VStr "recordings") 1700000000000 (Some hello_wav)) (play quiet) =
    (Sent {| status := 200;
             body := VObj [("message", VStr "Audio uploaded successfully!");
                           ("fileURL", VStr "https://cdn.example.org/hello.wav")] |},
     [StorageUpload (VStr "recordings") "audio/1700000000000_hello.wav"
        (buffer hello_wav) (VObj [("contentType", VStr "audio/wav")]);
      StorageGetPublicUrl (VStr "recordings") (VStr "audio/1700000000000_hello.wav")]).
Proof.
  exact (upload_returns_public_url
           (VStr "recordings") 1700000000000 hello_wav (play quiet)
           (VObj [("path", VStr "audio/1700000000000_hello.wav")])
           (VObj [("publicUrl", VStr "https://cdn.example.org/hello.wav")])
           eq_refl eq_refl eq_refl eq_refl).
Defined.

(** X10. When the storage upload reports no error but hands back no data,
    reading [data.path] throws: /upload answers 500 "Error uploading audio"
    with the TypeError's message and never asks for a public URL. *)
Theorem upload_without_data_is_500
    (bucket : JsVal) (now : Z) (file : File) (env : Oracle) (data : JsVal) :
  succeeds_with env
    (StorageUpload bucket (upload_key now (originalname file)) (buffer file)
       (VObj [("contentType", VStr (mimetype file))])) "data" = Some data ->
  nullish data = true ->
  run (upload bucket now (Some file)) env =
    (Sent {| status := 500;
             body := VObj [("error", VStr "Error uploading audio");
                           ("details", prop (TypeError_read (is_null data) "path") "message")] |},
     [StorageUpload bucket (upload_key now (originalname file)) (buffer file)
        (VObj [("contentType", VStr (mimetype file))])]).
Proof.
  intros Hup Hdata.
  unfold succeeds_with, upload_key in Hup.
  destruct (env (StorageUpload _ _ _ _)) as [uploaded|] eqn:Hcall; [|discriminate].
  destruct (nullish uploaded) eqn:Huploaded; [discriminate|].
  destruct (truthy (prop uploaded "error")) eqn:Herr; [discriminate|].
  injection Hup as <-.
  unfold upload, upload_key. explore. reflexivity.
Qed.

Lemma upload_without_data_is_500_witness :
  run (upload (VStr "recordings") 1700000000000 (Some hello_wav))
      (play (with_storage_upload (ok_data VNull) quiet)) =
    (Sent {| status := 500;
             body := VObj [("error", VStr "Error uploading audio");
                           ("details",
                            VStr "Cannot read properties of null (reading 'path')")] |},
     [StorageUpload (VStr "recordings") "audio/1700000000000_hello.wav"
        (buffer hello_wav) (VObj [("contentType", VStr "audio/wav")])]).
Proof.
  exact (upload_without_data_is_500
           (VStr "recordings") 1700000000000 hello_wav
           (play (with_storage_upload (ok_data VNull) quiet)) VNull
           eq_refl eq_refl).
Defined.

Lemma string_of_uint_no_underscore (d : Decimal.uint) :
  has_underscore (NilEmpty.string_of_uint d) = false.
Proof. induction d; simpl; auto. Qed.

Lemma decimal_no_underscore (n : Z) :
  has_underscore (NilZero.string_of_int (Z.to_int n)) = false.
Proof.
  unfold NilZero.string_of_int, NilZero.string_of_uint.
  destruct (Z.to_int n) as [d|d]; destruct d; try reflexivity;
    match goal with
    | |- has_underscore (String "-" (NilEmpty.string_of_uint ?u)) = false =>
        change (has_underscore (NilEmpty.string_of_uint u) = false)
    | _ => idtac
    end;
    apply string_of_uint_no_underscore.
Qed.

Lemma decimal_injective (n1 n2 : Z) :
  NilZero.string_of_int (Z.to_int n1) = NilZero.string_of_int (Z.to_int n2) -> n1 = n2.
Proof.
  intros H. apply DecimalZ.to_int_inj.
  assert (forall n, Z.to_int n <> Decimal.Pos Decimal.Nil
                    /\ Z.to_int n <> Decimal.Neg Decimal.Nil) as Hnn.
  { intros [|p|p]; simpl; split; try discriminate;
      intros [= Hp]; exact (DecimalPos.Unsigned.to_uint_nonnil p Hp). }
  assert (Some (Z.to_int n1) = Some (Z.to_int n2)) as [= ->]; [|reflexivity].
  rewrite <- (NilZero.isi (Z.to_int n1)), <- (NilZero.isi (Z.to_int n2))
    by apply Hnn.
  rewrite H. reflexivity.
Qed.

Lemma split_at_underscore (s1 s2 r1 r2 : string) :
  has_underscore s1 = false ->
  has_underscore s2 = false ->
  s1 ++ "_" ++ r1 = s2 ++ "_" ++ r2 ->
  s1 = s2 /\ r1 = r2.
Proof.
  revert s2. induction s1 as [|c s1 IH]; intros [|c2 s2] H1 H2 H; simpl in *.
  - injection H as ->. split; reflexivity.
  - injection H as <- _. unfold has_underscore in H2. simpl in H2. discriminate H2.
  - injection H as -> _. unfold has_underscore in H1. simpl in H1. discriminate H1.
  - injection H as -> H.
    unfold has_underscore in H1, H2. simpl in H1, H2.
    apply orb_false_elim in H1, H2.
    destruct (IH s2 (proj2 H1) (proj2 H2) H) as [-> ->]. split; reflexivity.
Qed.

(** X11. The storage key tells the upload apart: two uploads get the same
    key only when they were made at the same millisecond with the same
    original name.  (The timestamp has no underscore, so the first
    underscore of the key ends it, whatever the name holds.) *)
Theorem upload_key_injective (now1 now2 : Z) (name1 name2 : string) :
  is_time_value now1 = true ->
  is_time_value now2 = true ->
  upload_key now1 name1 = upload_key now2 name2 ->
  now1 = now2 /\ name1 = name2.
Proof.
  intros _ _ H. unfold upload_key in H. cbn [to_string] in H.
  injection H as H.
  apply split_at_underscore in H; try apply decimal_no_underscore.
  destruct H as [Hdec ->]. split; [|reflexivity].
  apply decimal_injective. exact Hdec.
Qed.

Lemma upload_key_injective_witness :
  1700000000000 = 1700000000000 /\ "a_b.wav" = "a_b.wav".
Proof.
  exact (upload_key_injective 1700000000000 1700000000000 "a_b.wav" "a_b.wav"
           eq_refl eq_refl eq_refl).
Defined.

(* ===================================================================== *)
(** ** GET /transcriptions/:userId *)
(* ===================================================================== *)

(** X12. The listing applies no format check: any truthy userId, UUID or
    not, is given to the store as it is, in one call; when the store reports
    no error its rows are returned unchanged with status 200, an empty list
    included. *)
Theorem listing_passes_rows_through (userId : JsVal) (env : Oracle) :
  truthy userId = true ->
  trace (transcriptions userId) env = [TranscriptionsSelectByUser userId]
  /\ forall rows,
       succeeds_with env (TranscriptionsSelectByUser userId) "data" = Some rows ->
       result (transcriptions userId) env =
         Sent {| status := 200;
                 body := VObj [("success", VBool true); ("transcriptions", rows)] |}.
Proof.
  intros Hid. unfold result, trace, transcriptions, succeeds_with.
  explore; (split; [reflexivity|]); intros rows Hrows;
    try discriminate Hrows; cbn [negb andb] in Hrows; try discriminate Hrows;
    injection Hrows as <-; reflexivity.
Qed.

Lemma listing_passes_rows_through_witness :
  trace (transcriptions (VStr "abc")) (play quiet) = [TranscriptionsSelectByUser (VStr "abc")]
  /\ result (transcriptions (VStr "abc")) (play quiet) =
       Sent {| status := 200;
               body := VObj [("success", VBool true); ("transcriptions", VArr [])] |}.
Proof.
  destruct (listing_passes_rows_through (VStr "abc") (play quiet) eq_refl)
    as [Htrace Hrows].
  split; [exact Htrace | exact (Hrows (VArr []) eq_refl)].
Defined.

(* ===================================================================== *)
(** ** More on /transcribe *)
(* ===================================================================== *)

Lemma transcript_chain_first (result alternative0 : JsVal) :
  first_alternative result = Some alternative0 ->
  transcript_chain result = Ret (prop alternative0 "transcript").
Proof.
  unfold first_alternative, transcript_chain, opt_chain, field, index, get_index.
  intros H.
  destruct (nullish result) eqn:Hresult; [discriminate H|].
  destruct (nullish (prop result "results")) eqn:Hresults; [discriminate H|].
  cbn [orb] in H.
  rewrite (get_field_prop result) by exact Hresult. steps. rewrite Hresults.
  rewrite (get_field_prop (prop result "results")) by exact Hresults. steps.
  destruct (prop (prop result "results") "channels") as [| | | | |channels|];
    try discriminate H.
  destruct channels as [|channel0 channels]; [discriminate H|].
  cbn [get_field]. change (prop (VArr (channel0 :: channels)) _) with channel0. steps.
  destruct (nullish channel0) eqn:Hchannel0; [discriminate H|].
  rewrite (get_field_prop channel0) by exact Hchannel0. steps.
  destruct (prop channel0 "alternatives") as [| | | | |alternatives|];
    try discriminate H.
  destruct alternatives as [|alt0 alternatives]; [discriminate H|].
  cbn [get_field]. change (prop (VArr (alt0 :: alternatives)) _) with alt0. steps.
  destruct (nullish alt0) eqn:Halt0; [discriminate H|].
  injection H as <-.
  rewrite (get_field_prop alt0) by exact Halt0. reflexivity.
Qed.

(** X13. The optional chain reads the transcript of the first alternative
    of the first channel and nothing else: further channels and further
    alternatives do not change its value. *)
Theorem transcript_chain_reads_first_alternative (result alternative0 : JsVal) :
  first_alternative result = Some alternative0 ->
  transcript_chain result = Ret (prop alternative0 "transcript").
Proof.
  unfold first_alternative, transcript_chain, opt_chain, field, index, get_index.
  intros H.
  destruct (nullish result) eqn:Hresult; [discriminate H|].
  destruct (nullish (prop result "results")) eqn:Hresults; [discriminate H|].
  cbn [orb] in H.
  rewrite (get_field_prop result) by exact Hresult. steps. rewrite Hresults.
  rewrite (get_field_prop (prop result "results")) by exact Hresults. steps.
  destruct (prop (prop result "results") "channels") as [| | | | |channels|];
    try discriminate H.
  destruct channels as [|channel0 channels]; [discriminate H|].
  cbn [get_field]. change (prop (VArr (channel0 :: channels)) _) with channel0. steps.
  destruct (nullish channel0) eqn:Hchannel0; [discriminate H|].
  rewrite (get_field_prop channel0) by exact Hchannel0. steps.
  destruct (prop channel0 "alternatives") as [| | | | |alternatives|];
    try discriminate H.
  destruct alternatives as [|alt0 alternatives]; [discriminate H|].
  cbn [get_field]. change (prop (VArr (alt0 :: alternatives)) _) with alt0. steps.
  destruct (nullish alt0) eqn:Halt0; [discriminate H|].
  injection H as <-.
  rewrite (get_field_prop alt0) by exact Halt0. reflexivity.
Qed.

Lemma transcript_chain_reads_first_alternative_witness :
  transcript_chain
    (VObj [("results",
            VObj [("channels",
                   VArr [VObj [("alternatives",
                                VArr [VObj [("transcript", VStr "left one")];
                                      VObj [("transcript", VStr "left two")]])];
                         VObj [("alternatives",
                                VArr [VObj [("transcript", VStr "right")]])]])])])
    = Ret (prop (VObj [("transcript", VStr "left one")]) "transcript").
Proof.
  exact (transcript_chain_reads_first_alternative
           (VObj [("results",
                   VObj [("channels",
                          VArr [VObj [("alternatives",
                                       VArr [VObj [("transcript", VStr "left one")];
                                             VObj [("transcript", VStr "left two")]])];
                                VObj [("alternatives",
                                       VArr [VObj [("transcript", VStr "right")]])]])])])
           (VObj [("transcript", VStr "left one")]) eq_refl).
Defined.

Lemma js_or_keeps (a b : JsVal) : truthy a = true -> js_or a b = a.
Proof. intros H. unfold js_or. rewrite H. reflexivity. Qed.

(** X14. A /transcribe request with a file and a userId that passes the
    check, whose provider answer has no error and a non-empty transcript in
    its first alternative, and whose record the store accepts, is answered
    200 with that transcript; the record given to the store holds the
    userId, the same transcript and the file name. *)
Theorem transcribe_returns_transcript
    (file : File) (req_body : JsVal) (env : Oracle)
    (heard alternative0 savedTranscription : JsVal) :
  nullish req_body = false ->
  truthy (prop req_body "userId") = true ->
  Regex.test uuidRegex (prop req_body "userId") = Value true ->
  succeeds_with env (transcribe_call file) "result" = Some heard ->
  first_alternative heard = Some alternative0 ->
  truthy (prop alternative0 "transcript") = true ->
  succeeds_with env
    (TranscriptionsInsert
       (transcription_row file req_body (prop alternative0 "transcript"))) "data"
    = Some savedTranscription ->
  run (transcribe (Some file) req_body) env =
    (Sent {| status := 200;
             body := VObj [("message", VStr "Transcription successful!");
                           ("transcript", prop alternative0 "transcript");
                           ("savedTranscription", savedTranscription)] |},
     [transcribe_call file;
      TranscriptionsInsert
        (transcription_row file req_body (prop alternative0 "transcript"))]).
Proof.
  intros Hbody Hpresent Hformat Hheard Hfirst Htext Hsaved.
  unfold succeeds_with, transcribe_call in Hheard.
  destruct (env (DeepgramTranscribeFile _ _)) as [answer|] eqn:Hcall; [|discriminate].
  destruct (nullish answer) eqn:Hnn; [discriminate|].
  destruct (truthy (prop answer "error")) eqn:Herr; [discriminate|].
  injection Hheard as <-.
  unfold succeeds_with, transcription_row in Hsaved.
  destruct (env (TranscriptionsInsert _)) as [stored|] eqn:Hins; [|discriminate].
  destruct (nullish stored) eqn:Hstored; [discriminate|].
  destruct (truthy (prop stored "error")) eqn:Hsave; [discriminate|].
  injection Hsaved as <-.
  unfold transcribe, transcribe_call, transcription_row. reads.
  rewrite Hpresent, Hformat. steps. rewrite Hcall. reads. rewrite Herr.
  rewrite (transcript_chain_first _ _ Hfirst). steps.
  rewrite (js_or_keeps _ (VStr "No transcript available") Htext).
  rewrite Hins. reads. rewrite Hsave. reflexivity.
Qed.

Lemma transcribe_returns_transcript_witness :
  run (transcribe (Some hello_wav) (with_userId a_uuid)) (play quiet) =
    (Sent {| status := 200;
             body := VObj [("message", VStr "Transcription successful!");
                           ("transcript", VStr "hello world");
                           ("savedTranscription", VNull)] |},
     [transcribe_call hello_wav;
      TranscriptionsInsert
        (transcription_row hello_wav (with_userId a_uuid) (VStr "hello world"))]).
Proof.
  exact (transcribe_returns_transcript
           hello_wav (with_userId a_uuid) (play quiet)
           (result_with (VStr "hello world"))
           (VObj [("transcript", VStr "hello world"); ("confidence", VNum 0)])
           VNull
           eq_refl eq_refl eq_refl eq_refl eq_refl eq_refl eq_refl).
Defined.

Lemma js_or_fallback_truthy (a b : JsVal) : truthy b = true -> truthy (js_or a b) = true.
Proof. intros H. unfold js_or. destruct (truthy a) eqn:E; assumption. Qed.

Lemma transcribe_insert_user_id
    (req_file : option File) (req_body : JsVal) (env : Oracle) (row : JsVal) :
  In (TranscriptionsInsert row) (trace (transcribe req_file req_body) env) ->
  prop row "user_id" = prop req_body "userId".
Proof.
  destruct req_file as [file|]; [|intros []].
  unfold trace, transcribe, transcript_chain. explore;
    intros Hin; cbn [In] in Hin;
    repeat (destruct Hin as [Heq|Hin]; [try discriminate Heq|]);
    try contradiction;
    injection Heq as <-; reflexivity.
Qed.

(** X15. Whatever /transcribe gives to the transcriptions table, on any
    path, it gives after the userId passed the check and the provider
    answered without error; the record holds that userId and a transcript
    that is never empty. *)
Theorem transcribe_stores_only_checked
    (req_file : option File) (req_body : JsVal) (env : Oracle) (row : JsVal) :
  In (TranscriptionsInsert row) (trace (transcribe req_file req_body) env) ->
  exists file heard transcript,
    req_file = Some file
    /\ truthy (prop req_body "userId") = true
    /\ Regex.test uuidRegex (prop req_body "userId") = Value true
    /\ succeeds_with env (transcribe_call file) "result" = Some heard
    /\ row = transcription_row file req_body transcript
    /\ truthy transcript = true.
Proof.
  destruct req_file as [file|]; [|intros []].
  intros Hin. exists file.
  revert Hin. unfold trace, transcribe, transcript_chain. explore;
    intros Hin; cbn [In] in Hin;
    repeat (destruct Hin as [Heq|Hin]; [try discriminate Heq|]);
    try contradiction;
    injection Heq as <-;
    match goal with
    | Hcall : env (DeepgramTranscribeFile _ _) = Resolved ?answer |- _ =>
        exists (prop answer "result")
    end;
    eexists;
    (split; [reflexivity|]);
    (split; [first [assumption | reflexivity]|]);
    (split; [first [assumption | reflexivity]|]);
    (split;
     [unfold succeeds_with, transcribe_call;
      repeat match goal with H : env _ = _ |- _ => rewrite H; clear H end;
      repeat match goal with H : nullish _ = _ |- _ => rewrite H end;
      repeat match goal with H : truthy _ = _ |- _ => rewrite H end;
      reflexivity|]);
    (split; [reflexivity | apply js_or_fallback_truthy; reflexivity]).
Qed.

Lemma transcribe_stores_only_checked_witness :
  exists file heard transcript,
    Some hello_wav = Some file
    /\ truthy (prop (with_userId a_uuid) "userId") = true
    /\ Regex.test uuidRegex (prop (with_userId a_uuid) "userId") = Value true
    /\ succeeds_with (play quiet) (transcribe_call file) "result" = Some heard
    /\ transcription_row hello_wav (with_userId a_uuid) (VStr "hello world")
       = transcription_row file (with_userId a_uuid) transcript
    /\ truthy transcript = true.
Proof.
  apply (transcribe_stores_only_checked
           (Some hello_wav) (with_userId a_uuid) (play quiet)
           (transcription_row hello_wav (with_userId a_uuid) (VStr "hello world"))).
  right. left. reflexivity.
Defined.

(** X16. The response of a successful /transcribe and the record it stored
    agree: the [transcript] sent is the one given to the store, it is never
    empty, and [savedTranscription] is the data the store's insert handed
    back. *)
Theorem transcribe_response_matches_record
    (file : File) (req_body : JsVal) (env : Oracle) (resp : Response) :
  result (transcribe (Some file) req_body) env = Sent resp ->
  status resp = 200 ->
  exists transcript savedTranscription,
    body resp = VObj [("message", VStr "Transcription successful!");
                      ("transcript", transcript);
                      ("savedTranscription", savedTranscription)]
    /\ truthy transcript = true
    /\ trace (transcribe (Some file) req_body) env =
         [transcribe_call file;
          TranscriptionsInsert (transcription_row file req_body transcript)]
    /\ succeeds_with env
         (TranscriptionsInsert (transcription_row file req_body transcript)) "data"
       = Some savedTranscription.
Proof.
  unfold result, trace, transcribe, transcript_chain. explore;
    intros Heq Hst; try discriminate Heq; injection Heq as <-;
    cbn [status] in Hst; try discriminate Hst;
    eexists; eexists; cbn [body];
    (split; [reflexivity|]);
    (split; [apply js_or_fallback_truthy; reflexivity|]);
    (split; [reflexivity|]);
    unfold succeeds_with, transcription_row;
    change (NilZero.string_of_uint (Nat.to_uint 0)) with "0" in *;
    repeat match goal with H : env _ = _ |- _ => rewrite H; clear H end;
    repeat match goal with H : nullish _ = _ |- _ => rewrite H end;
    repeat match goal with H : truthy _ = _ |- _ => rewrite H end;
    reflexivity.
Qed.

Lemma transcribe_response_matches_record_witness :
  exists transcript savedTranscription,
    VObj [("message", VStr "Transcription successful!");
          ("transcript", VStr "hello world");
          ("savedTranscription", VNull)]
      = VObj [("message", VStr "Transcription successful!");
              ("transcript", transcript);
              ("savedTranscription", savedTranscription)]
    /\ truthy transcript = true
    /\ trace (transcribe (Some hello_wav) (with_userId a_uuid)) (play quiet) =
         [transcribe_call hello_wav;
          TranscriptionsInsert
            (transcription_row hello_wav (with_userId a_uuid) transcript)]
    /\ succeeds_with (play quiet)
         (TranscriptionsInsert
            (transcription_row hello_wav (with_userId a_uuid) transcript)) "data"
       = Some savedTranscription.
Proof.
  exact (transcribe_response_matches_record
           hello_wav (with_userId a_uuid) (play quiet)
           {| status := 200;
              body := VObj [("message", VStr "Transcription successful!");
                            ("transcript", VStr "hello world");
                            ("savedTranscription", VNull)] |}
           eq_refl eq_refl).
Defined.

Lemma hex_digit_is_accepted (c : ascii) :
  is_hex_digit c = true -> is_hex_digit c || is_hyphen c = true.
Proof. intros ->. reflexivity. Qed.

Lemma hex_run_spec (n : nat) :
  forall s rest,
    hex_run n s = Some rest ->
    String.length s = (n + String.length rest)%nat
    /\ forallb (fun c => is_hex_digit c || is_hyphen c) (list_ascii_of_string s)
       = forallb (fun c => is_hex_digit c || is_hyphen c) (list_ascii_of_string rest).
Proof.
  induction n as [|n IH]; intros s rest H; simpl in H.
  - injection H as <-. split; reflexivity.
  - destruct s as [|c s]; [discriminate H|].
    destruct (is_hex_digit c) eqn:Hc; [|discriminate H].
    destruct (IH s rest H) as [Hlen Hall]. simpl. split.
    + rewrite Hlen. reflexivity.
    + rewrite Hc. exact Hall.
Qed.

Lemma hex_groups_spec (groups : list nat) :
  forall s,
    hex_groups groups s = true ->
    String.length s = (list_sum groups + (List.length groups - 1))%nat
    /\ forallb (fun c => is_hex_digit c || is_hyphen c) (list_ascii_of_string s) = true.
Proof.
  induction groups as [|n more IH]; intros s H; [discriminate H|].
  destruct more as [|m more].
  - simpl in H. destruct (hex_run n s) as [[|c rest]|] eqn:Hrun; try discriminate H.
    destruct (hex_run_spec n s _ Hrun) as [Hlen Hall]. simpl in *. split.
    + rewrite Hlen. lia.
    + rewrite Hall. reflexivity.
  - change (hex_groups (n :: m :: more) s)
      with (match hex_run n s with
            | Some (String c rest) => is_hyphen c && hex_groups (m :: more) rest
            | _ => false
            end) in H.
    destruct (hex_run n s) as [[|c rest]|] eqn:Hrun; try discriminate H.
    apply andb_prop in H. destruct H as [Hc Hrest].
    destruct (hex_run_spec n s _ Hrun) as [Hlen Hall].
    destruct (IH rest Hrest) as [Hlen' Hall']. split.
    + rewrite Hlen. cbn [String.length]. rewrite Hlen'.
      cbn [list_sum List.length fold_right]. lia.
    + rewrite Hall. cbn [list_ascii_of_string forallb].
      rewrite Hc, orb_true_r. exact Hall'.
Qed.

(** X17. No UUID is turned away: a userId in the textual form of a UUID
    (hex digits in groups of 8, 4, 4, 4 and 12 with hyphens between) passes
    the check of /transcribe, and with a file present the request reaches
    the transcription provider. *)
Theorem every_uuid_passes_the_check
    (s : string) (file : File) (req_body : JsVal) (env : Oracle) :
  is_uuid s = true ->
  nullish req_body = false ->
  prop req_body "userId" = VStr s ->
  Regex.test uuidRegex (VStr s) = Value true
  /\ exists more,
       trace (transcribe (Some file) req_body) env = transcribe_call file :: more.
Proof.
  intros Huuid Hbody Hfield.
  assert (well_formed_userId s = true) as Hgood.
  { destruct (hex_groups_spec _ s Huuid) as [Hlen Hall].
    unfold well_formed_userId. rewrite Hlen, Hall. reflexivity. }
  assert (Regex.test uuidRegex (VStr s) = Value true) as Htest
    by (rewrite uuidRegex_test_string, Hgood; reflexivity).
  split; [exact Htest|].
  apply transcribe_calls_provider; rewrite ?Hfield.
  - exact Hbody.
  - apply well_formed_nonempty. exact Hgood.
  - exact Htest.
Qed.

Lemma every_uuid_passes_the_check_witness :
  Regex.test uuidRegex (VStr a_uuid) = Value true
  /\ exists more,
       trace (transcribe (Some hello_wav) (with_userId a_uuid)) (play quiet)
         = transcribe_call hello_wav :: more.
Proof.
  exact (every_uuid_passes_the_check a_uuid hello_wav (with_userId a_uuid) (play quiet)
           eq_refl eq_refl eq_refl).
Defined.

(** X18. The pattern is tested against the string form of userId, so a
    userId that is an array holding one well-formed string passes the check
    too; the request reaches the provider, and the record given to the
    store has the array itself as [user_id]. *)
Theorem array_userId_passes_the_check
    (s : string) (file : File) (req_body : JsVal) (env : Oracle) :
  well_formed_userId s = true ->
  nullish req_body = false ->
  prop req_body "userId" = VArr [VStr s] ->
  Regex.test uuidRegex (VArr [VStr s]) = Value true
  /\ (exists more,
        trace (transcribe (Some file) req_body) env = transcribe_call file :: more)
  /\ forall row,
       In (TranscriptionsInsert row) (trace (transcribe (Some file) req_body) env) ->
       prop row "user_id" = VArr [VStr s].
Proof.
  intros Hgood Hbody Hfield.
  assert (Regex.test uuidRegex (VArr [VStr s]) = Value true) as Htest.
  { change (Regex.test uuidRegex (VArr [VStr s])) with (Regex.test uuidRegex (VStr s)).
    rewrite uuidRegex_test_string, Hgood. reflexivity. }
  split; [exact Htest|]. split.
  - apply transcribe_calls_provider; rewrite ?Hfield; auto.
  - intros row Hin.
    rewrite (transcribe_insert_user_id _ _ _ _ Hin). exact Hfield.
Qed.

Lemma array_userId_passes_the_check_witness :
  Regex.test uuidRegex (VArr [VStr a_uuid]) = Value true
  /\ (exists more,
        trace (transcribe (Some hello_wav) (VObj [("userId", VArr [VStr a_uuid])]))
              (play quiet)
          = transcribe_call hello_wav :: more)
  /\ forall row,
       In (TranscriptionsInsert row)
          (trace (transcribe (Some hello_wav) (VObj [("userId", VArr [VStr a_uuid])]))
                 (play quiet)) ->
       prop row "user_id" = VArr [VStr a_uuid].
Proof.
  exact (array_userId_passes_the_check
           a_uuid hello_wav (VObj [("userId", VArr [VStr a_uuid])]) (play quiet)
           eq_refl eq_refl eq_refl).
Defined.

(* ===================================================================== *)
(** ** What a 400 from /signup or /login means; no retries *)
(* ===================================================================== *)

(** X19. On every route and every path no call is made twice: nothing is
    retried, whatever the outside services answer. *)
Theorem nothing_is_retried (req : Request) (env : Oracle) :
  NoDup (trace (handle req) env).
Proof.
  unfold trace. each_route req; explore;
    repeat (constructor; [cbn [In]; intuition discriminate|]); constructor.
Qed.

(** X20. /signup answers 400 only for an email the lookup found a user
    for. *)
Theorem signup_400_means_existing_user
    (req_body : JsVal) (env : Oracle) (resp : Response) :
  result (signup req_body) env = Sent resp ->
  status resp = 400 ->
  nullish req_body = false
  /\ (exists user, finds_user env (prop req_body "email") = Some user)
  /\ body resp = VObj [("error", VStr "User already exists")].
Proof.
  unfold result, signup. explore;
    intros Heq Hst; try discriminate Heq; injection Heq as <-;
    cbn [status] in Hst; try discriminate Hst.
  split; [reflexivity|]. split; [|reflexivity].
  unfold finds_user.
  repeat match goal with H : env _ = _ |- _ => rewrite H; clear H end;
  repeat match goal with H : truthy _ = _ |- _ => rewrite H end.
  eexists. reflexivity.
Qed.

Lemma signup_400_means_existing_user_witness :
  nullish (registration "ada@example.org" (VStr "s3cret") "Ada") = false
  /\ (exists user,
        finds_user (play (with_users_select (ok_data ada) quiet))
                   (prop (registration "ada@example.org" (VStr "s3cret") "Ada") "email")
          = Some user)
  /\ VObj [("error", VStr "User already exists")]
     = VObj [("error", VStr "User already exists")].
Proof.
  exact (signup_400_means_existing_user
           (registration "ada@example.org" (VStr "s3cret") "Ada")
           (play (with_users_select (ok_data ada) quiet))
           {| status := 400; body := VObj [("error", VStr "User already exists")] |}
           eq_refl eq_refl).
Defined.

(** X21. /login answers 400 only when the lookup found no user, or found
    one whose password [bcrypt.compare] did not accept; when no user was
    found, the lookup is the only call: nothing is compared. *)
Theorem login_400_means_bad_credentials
    (req_body : JsVal) (env : Oracle) (resp : Response) :
  result (login req_body) env = Sent resp ->
  status resp = 400 ->
  (finds_no_user env (prop req_body "email") = true
   /\ trace (login req_body) env = [UsersSelectByEmail (prop req_body "email")])
  \/ (exists user,
        finds_user env (prop req_body "email") = Some user
        /\ password_mismatch env (prop req_body "password") user = true).
Proof.
  unfold result, trace, login. explore;
    intros Heq Hst; try discriminate Heq; injection Heq as <-;
    cbn [status] in Hst; try discriminate Hst;
    first
    [ left; unfold finds_no_user;
      repeat match goal with H : env _ = _ |- _ => rewrite H end;
      repeat match goal with H : nullish _ = _ |- _ => rewrite H end;
      repeat match goal with H : truthy _ = _ |- _ => rewrite H end;
      split; reflexivity
    | right; unfold finds_user, password_mismatch;
      repeat match goal with H : env _ = _ |- _ => rewrite H end;
      repeat match goal with H : truthy _ = _ |- _ => rewrite H end;
      eexists; split; [reflexivity|];
      repeat match goal with H : env _ = _ |- _ => rewrite H end;
      repeat match goal with H : truthy _ = _ |- _ => rewrite H end;
      reflexivity ].
Qed.

Lemma login_400_means_bad_credentials_witness :
  (finds_no_user (play quiet) (prop (credentials "nobody@example.org" "guess") "email") = true
   /\ trace (login (credentials "nobody@example.org" "guess")) (play quiet)
      = [UsersSelectByEmail (prop (credentials "nobody@example.org" "guess") "email")])
  \/ (exists user,
        finds_user (play quiet) (prop (credentials "nobody@example.org" "guess") "email")
          = Some user
        /\ password_mismatch (play quiet)
             (prop (credentials "nobody@example.org" "guess") "password") user = true).
Proof.
  exact (login_400_means_bad_credentials
           (credentials "nobody@example.org" "guess") (play quiet)
           {| status := 400; body := VObj [("error", VStr "Invalid email or password")] |}
           eq_refl eq_refl).
Defined.

(* ===================================================================== *)
(** ** The userId check on values of any kind *)
(* ===================================================================== *)

Lemma uuidRegex_test_any (v : JsVal) :
  Regex.test uuidRegex v =
    match to_string v with
    | Value s => Value (well_formed_userId s)
    | Raise e => Raise e
    end.
Proof.
  unfold Regex.test. destruct (to_string v) as [s|e]; [|reflexivity].
  f_equal. apply (matches_exactly_spec _ _ uuidRegex_class).
Qed.

(** X22. A userId that is an object (a nested field of the multipart body)
    cannot be converted to a string: [uuidRegex.test] throws, and /transcribe
    answers 500 with the TypeError's message, not 400; no call is made. *)
Theorem object_userId_is_500
    (file : File) (req_body : JsVal) (env : Oracle) (fields : list (string * JsVal)) :
  nullish req_body = false ->
  prop req_body "userId" = VObj fields ->
  run (transcribe (Some file) req_body) env =
    (Sent {| status := 500;
             body := VObj [("error", VStr "Error transcribing audio");
                           ("details", VStr "Cannot convert object to primitive value")] |},
     []).
Proof.
  intros Hbody Hfield. unfold transcribe. reads. rewrite Hfield.
  cbn [truthy]. steps. reflexivity.
Qed.

Lemma object_userId_is_500_witness :
  run (transcribe (Some hello_wav) (VObj [("userId", VObj [("id", VStr a_uuid)])]))
      (play quiet) =
    (Sent {| status := 500;
             body := VObj [("error", VStr "Error transcribing audio");
                           ("details", VStr "Cannot convert object to primitive value")] |},
     []).
Proof.
  exact (object_userId_is_500 hello_wav (VObj [("userId", VObj [("id", VStr a_uuid)])])
           (play quiet) [("id", VStr a_uuid)] eq_refl eq_refl).
Defined.

(** X23. Whatever kind of value userId is, with a file present /transcribe
    answers 400 exactly when userId is falsy or its string form is not 36
    characters, each a hex digit or a hyphen; and it makes no call unless
    the string form is well formed. *)
Theorem userId_gate_reads_the_string_form
    (file : File) (req_body : JsVal) (env : Oracle) :
  nullish req_body = false ->
  (status_of (result (transcribe (Some file) req_body) env) = Some 400
   <-> truthy (prop req_body "userId") = false
       \/ exists s, to_string (prop req_body "userId") = Value s
                    /\ well_formed_userId s = false)
  /\ (trace (transcribe (Some file) req_body) env <> [] ->
      exists s, to_string (prop req_body "userId") = Value s
                /\ well_formed_userId s = true).
Proof.
  intros Hbody. unfold result, trace, transcribe. reads.
  destruct (truthy (prop req_body "userId")) eqn:Hpresent; steps.
  2: { split; [split; [intros _; left; reflexivity | reflexivity]
              | intros H; contradiction H; reflexivity]. }
  rewrite uuidRegex_test_any.
  destruct (to_string (prop req_body "userId")) as [s|e] eqn:Hstring; steps.
  - destruct (well_formed_userId s) eqn:Hgood; steps.
    + unfold transcript_chain. explore;
        (split;
         [split;
          [intros Hst; simpl in Hst; discriminate Hst
          |intros [Hf|[s' [Hs' Hbad]]]; [discriminate Hf|];
           injection Hs' as <-; congruence]
         |intros _; exists s; split; [reflexivity | exact Hgood]]).
    + split; [split; [intros _; right; exists s; split; [reflexivity|exact Hgood]
                     |reflexivity]
             |intros H; contradiction H; reflexivity].
  - pose proof (to_string_raises _ _ Hstring) as ->. cbn.
    split; [split; [intros Hst; discriminate Hst
                   |intros [Hf|[s [Hs _]]]; discriminate]
           |intros H; contradiction H; reflexivity].
Qed.

Lemma userId_gate_reads_the_string_form_witness :
  (status_of (result (transcribe (Some hello_wav) (with_userId "abc")) (play quiet))
     = Some 400
   <-> truthy (prop (with_userId "abc") "userId") = false
       \/ exists s, to_string (prop (with_userId "abc") "userId") = Value s
                    /\ well_formed_userId s = false)
  /\ (trace (transcribe (Some hello_wav) (with_userId "abc")) (play quiet) <> [] ->
      exists s, to_string (prop (with_userId "abc") "userId") = Value s
                /\ well_formed_userId s = true).
Proof.
  exact (userId_gate_reads_the_string_form hello_wav (with_userId "abc") (play quiet)
           eq_refl).
Defined.
